(** * GooglePlayAppId: the resumable fetch pipeline of [main.py]

    A shallow embedding of [get_url_file_name], [fetch_app_ids_task],
    [run_fetch_app_ids_tasks], [concat_all_app_ids] and the record check,
    fetch and combine stages of [fetch_app_ids], over an explicit model of
    the file system and of the library calls the program makes; then of
    [read_sitemap_loc_urls], the first stage of [fetch_app_ids],
    [fetch_sitemaps_url] and [main], over the same model extended with the
    [aiohttp] session.

    Conventions of the model.
    - A Python [str] is a [string] (its UTF-8 bytes; byte order and code
      point order agree, so [sorted] is the byte-wise lexicographic order).
    - The file system is a finite map from path to the contents of the
      regular file stored there, plus the set of directories. The cache
      directory holds regular files only.
    - Library calls whose result the program cannot know ahead of time
      (network, gzip, the XML parser, [urlparse], [parse_qs], the iteration
      order of a [set] and of [os.listdir], disk faults) are fields of an
      environment [Env]; every theorem holds for every environment.
    - Python exceptions are the [Raise] result of a state-and-error monad;
      the state survives a raise, as it does in Python.
    - [os.remove] of an existing regular file succeeds.
    - The process pool runs the tasks to completion one after the other in
      dispatch order; a task touches no file but its own target. *)

From Stdlib Require Import Strings.String Strings.Ascii.
From stdpp Require Import base gmap strings list sorting pretty fin_maps.

Local Open Scope string_scope.
Local Open Scope list_scope.

(** Let [simpl] unfold string concatenation on a known head, and keep
    character and string comparisons folded. *)
Local Arguments String.append !s1 s2 : simpl nomatch.
Local Arguments Ascii.eqb : simpl never.
Local Arguments String.eqb : simpl never.

(** ** Strings and paths *)

Module Py.

(** [s.startswith(p)] *)
Fixpoint startswith (s p : string) : bool :=
match p, s with
| EmptyString, _ => true
| String _ _, EmptyString => false
| String a p', String b s' => if Ascii.eqb a b then startswith s' p' else false
end.

(** [s.endswith(suf)] *)
Fixpoint endswith (s suf : string) : bool :=
if String.eqb s suf then true
else match s with
     | EmptyString => false
     | String _ s' => endswith s' suf
     end.

(** [s[:-n]] for [n > 0]: all but the last [n] characters. *)
Definition drop_last (n : nat) (s : string) : string :=
substring 0 (String.length s - n) s.

(** [c in s] for a single character [c]. *)
Fixpoint contains (c : ascii) (s : string) : bool :=
match s with
| EmptyString => false
| String a s' => if Ascii.eqb a c then true else contains c s'
end.

(** [s[len(p):]] when [s] starts with [p]. *)
Fixpoint strip_prefix (p s : string) : option string :=
match p, s with
| EmptyString, _ => Some s
| String _ _, EmptyString => None
| String a p', String b s' => if Ascii.eqb a b then strip_prefix p' s' else None
end.

(** [''.join(l)] *)
Definition join (l : list string) : string := foldr String.append "" l.

End Py.

Module Path.

Definition sep : ascii := "/"%char.

(** [posixpath.basename]: [p[p.rfind('/') + 1:]]. *)
Fixpoint basename (p : string) : string :=
match p with
| EmptyString => EmptyString
| String c rest =>
    if Py.contains sep rest then basename rest
    else if Ascii.eqb c sep then rest else p
end.

(** [posixpath.join(a, b)] with two arguments. *)
Definition join (a b : string) : string :=
if Py.startswith b "/" then b
else if String.eqb a "" || Py.endswith a "/" then a +:+ b
else a +:+ "/" +:+ b.

End Path.

(** ** Data of the program *)

(** An [lxml] element: tag, attribute dictionary, child elements. *)
#[warnings="-register-all"]
Inductive Element : Type :=
  | Elem (tag : string) (attrib : gmap string string) (children : list Element).

Definition attrib (e : Element) : gmap string string :=
  match e with Elem _ a _ => a end.

(** [tree.iter()]: the element itself, then its descendants, in document
    order. *)
Fixpoint iter (e : Element) : list Element :=
  match e with
  | Elem _ _ cs =>
      e :: (fix iter_all (l : list Element) : list Element :=
              match l with
              | [] => []
              | c :: l' => iter c ++ iter_all l'
              end) cs
  end.

(** The six components [urlparse] returns. *)
Record ParseResult : Type := mkParseResult {
  scheme : string;
  netloc : string;
  path : string;
  params : string;
  query : string;
  fragment : string
}.

Inductive exn : Type :=
  | ValueError        (* urlparse rejects the URL *)
  | KeyError          (* d[k] with k missing *)
  | IndexError        (* l[0] on an empty list *)
  | URLError          (* urlopen / response.read *)
  | BadGzipFile       (* gzip.decompress *)
  | XMLSyntaxError    (* etree.fromstring *)
  | OSError           (* open, write, read *)
  | FileNotFoundError (* a path that is not there *).

Inductive result (A : Type) : Type :=
  | Ok (a : A)
  | Raise (e : exn).
Arguments Ok {A} a.
Arguments Raise {A} e.

(** What the program does to the outside world, in order. *)
Inductive Event : Type :=
  | EvUrlopen (url : string)
  | EvListdir (dir : string)
  | EvOpenW (p : string)
  | EvWrite (p data : string)
  | EvRead (p : string)
  | EvRemove (p : string)
  | EvPrint (line : string).

Global Instance exn_eq_dec : EqDecision exn.
Proof. solve_decision. Defined.
Global Instance Event_eq_dec : EqDecision Event.
Proof. solve_decision. Defined.

Record World : Type := mkWorld {
  files : gmap string string;
  dirs : gset string;
  trace : list Event
}.

(** The library and the operating system, as the program sees them. *)
Record Env : Type := mkEnv {
  (** [urllib.parse.urlparse]; [None] when it raises [ValueError]. *)
  urlparse : string → option ParseResult;
  (** [urllib.parse.parse_qs] *)
  parse_qs : string → gmap string (list string);
  (** [urlopen(url)] followed by [response.read()]; [None] on any error. *)
  urlopen : string → option string;
  (** [gzip.decompress]; [None] when the payload is not gzip. *)
  gzip_decompress : string → option string;
  (** [etree.fromstring]; [None] when the payload is not XML. *)
  etree_fromstring : string → option Element;
  (** The order in which iterating [set(l)] yields its members. *)
  set_iter : list string → list string;
  (** The order in which [os.listdir] yields the entries of a directory. *)
  listdir_order : list string → list string;
  (** Whether [open(p, "w")] succeeds (the directory is there, the path
      may be written, the disk has room). *)
  open_w_ok : string → bool;
  (** [write_cut p data = Some n]: writing [data] to [p] fails after [n]
      characters have reached the file; [None]: the write is complete. *)
  write_cut : string → string → option nat;
  (** Whether an existing file can be opened and read. *)
  open_r_ok : string → bool
}.

(** What Python guarantees about the two iteration orders. *)
Record EnvOk (E : Env) : Prop := mkEnvOk {
  set_iter_NoDup : ∀ l, NoDup (set_iter E l);
  set_iter_elem : ∀ l x, x ∈ set_iter E l ↔ x ∈ l;
  listdir_order_perm : ∀ l, listdir_order E l ≡ₚ l
}.

(** ** The monad of the program: state that survives exceptions *)

Definition M (A : Type) : Type := World → result A * World.

Global Instance M_ret : MRet M := λ A a w, (Ok a, w).
Global Instance M_bind : MBind M := λ A B f m w,
  match m w with
  | (Ok a, w') => f a w'
  | (Raise e, w') => (Raise e, w')
  end.

Global Instance result_ret : MRet result := λ A a, Ok a.
Global Instance result_bind : MBind result := λ A B f r,
  match r with
  | Ok a => f a
  | Raise e => Raise e
  end.

(** A pure computation that may raise, run inside the program. *)
Definition lift {A} (r : result A) : M A := λ w, (r, w).

(** [try: body except: handler] with a bare [except]. *)
Definition try_except {A} (body handler : M A) : M A := λ w,
  match body w with
  | (Ok a, w') => (Ok a, w')
  | (Raise _, w') => handler w'
  end.

Definition emit (ev : Event) : M unit := λ w,
  (Ok (), mkWorld (files w) (dirs w) (trace w ++ [ev])).

Definition print (line : string) : M unit := emit (EvPrint line).

(** [[f(x) for x in l]] where [f] may raise: stops at the first raise. *)
Fixpoint comprehension {A B} (f : A → result B) (l : list A) : result (list B) :=
  match l with
  | [] => Ok []
  | x :: l' => y ← f x; ys ← comprehension f l'; mret (y :: ys)
  end.

(** [for x in l: body(x)] *)
Fixpoint for_each {A} (l : list A) (body : A → M unit) : M unit :=
  match l with
  | [] => mret ()
  | x :: l' => body x ;; for_each l' body
  end.

(** The line terminator written after every identifier. *)
Definition nl : string := String (ascii_of_nat 10) "".

(** ** The program *)

Section Program.
Context (E : Env).

(** *** Operating system and network calls *)

Definition os_path_isfile (p : string) : M bool := λ w,
  (Ok (bool_decide (is_Some (files w !! p))), w).

Definition os_path_isdir (p : string) : M bool := λ w,
  (Ok (bool_decide (p ∈ dirs w)), w).

Definition os_remove (p : string) : M unit := λ w,
  match files w !! p with
  | Some _ =>
      (Ok (), mkWorld (delete p (files w)) (dirs w) (trace w ++ [EvRemove p]))
  | None => (Raise FileNotFoundError, w)
  end.

(** The name a path has inside directory [d], when it lies directly in
    it. *)
Definition entry_name (d p : string) : option string :=
  match Py.strip_prefix (Path.join d "") p with
  | Some n =>
      if negb (Py.contains Path.sep n) && negb (String.eqb n "")
      then Some n else None
  | None => None
  end.

(** The names of the files directly inside directory [d]. *)
Definition entries (fs : gmap string string) (d : string) : list string :=
  omap (entry_name d) (elements (dom fs)).

Definition os_listdir (d : string) : M (list string) := λ w,
  if bool_decide (d ∈ dirs w) then
    (Ok (listdir_order E (entries (files w) d)),
     mkWorld (files w) (dirs w) (trace w ++ [EvListdir d]))
  else (Raise FileNotFoundError, w).

(** [open(p, "w")]: creates the file, or truncates the one there. *)
Definition open_w (p : string) : M unit := λ w,
  if open_w_ok E p then
    (Ok (), mkWorld (<[p := ""]> (files w)) (dirs w) (trace w ++ [EvOpenW p]))
  else (Raise OSError, w).

(** [f.write(data)] on a file opened at [p]: appends; a failing write
    leaves the part that got through. *)
Definition write (p data : string) : M unit := λ w,
  let old := default "" (files w !! p) in
  match write_cut E p data with
  | None =>
      (Ok (), mkWorld (<[p := old +:+ data]> (files w)) (dirs w)
                      (trace w ++ [EvWrite p data]))
  | Some n =>
      (Raise OSError,
       mkWorld (<[p := old +:+ substring 0 n data]> (files w)) (dirs w)
               (trace w ++ [EvWrite p (substring 0 n data)]))
  end.

(** [open(p, "r")] then [f.read()]. *)
Definition read (p : string) : M string := λ w,
  match files w !! p with
  | Some data =>
      if open_r_ok E p then
        (Ok data, mkWorld (files w) (dirs w) (trace w ++ [EvRead p]))
      else (Raise OSError, w)
  | None => (Raise FileNotFoundError, w)
  end.

(** [urlopen(url)] and [response.read()]. *)
Definition urlopen_read (url : string) : M string := λ w,
  let w' := mkWorld (files w) (dirs w) (trace w ++ [EvUrlopen url]) in
  match urlopen E url with
  | Some raw => (Ok raw, w')
  | None => (Raise URLError, w')
  end.

Definition or_raise {A} (e : exn) (o : option A) : result A :=
  match o with
  | Some a => Ok a
  | None => Raise e
  end.

(** *** [get_url_file_name] (lines 28-29) *)

Definition get_url_file_name (url : string) : result string :=
  r ← or_raise ValueError (urlparse E url);
  mret (Path.basename (path r)).

(** *** [fetch_app_ids_task] (lines 33-47) *)

Definition STORE_APPS : string := "https://play.google.com/store/apps".

(** Line 39, the list under [set(...)]: the [href] of every element that
    has one, in document order. *)
Definition hrefs (tree : Element) : list string :=
  omap (λ element, attrib element !! "href") (iter tree).

(** [parse_qs(urlparse(i).query)["id"][0]] *)
Definition app_id (i : string) : result string :=
  r ← or_raise ValueError (urlparse E i);
  values ← or_raise KeyError (parse_qs E (query r) !! "id");
  or_raise IndexError (head values).

(** Line 40. *)
Definition app_ids_of (gp_urls : list string) : result (list string) :=
  comprehension app_id
    (filter (λ i, Is_true (Py.startswith i STORE_APPS)) gp_urls).

(** [f.writelines(lines)] *)
Definition writelines (p : string) (lines : list string) : M unit :=
  for_each lines (write p).

Definition fetch_app_ids_task (url app_ids_dir : string) : M bool :=
  name ← lift (get_url_file_name url);
  let output_path := Path.join app_ids_dir (name +:+ ".txt") in
  try_except
    (raw ← urlopen_read url;
     content ← lift (or_raise BadGzipFile (gzip_decompress E raw));
     tree ← lift (or_raise XMLSyntaxError (etree_fromstring E content));
     let gp_urls := set_iter E (hrefs tree) in
     app_ids ← lift (app_ids_of gp_urls);
     open_w output_path;;
     writelines output_path ((λ i, i +:+ nl) <$> app_ids);;
     mret true)
    (b ← os_path_isfile output_path;
     (if b : bool then os_remove output_path else mret ());;
     mret false).

(** *** [run_fetch_app_ids_tasks] (lines 50-65) *)

(** The pool runs every submitted task to completion and keeps what each
    returned or raised. *)
Fixpoint run_in_executor {A} (tasks : list (M A)) (w : World)
  : list (result A) * World :=
  match tasks with
  | [] => ([], w)
  | t :: ts =>
      let '(r, w1) := t w in
      let '(rs, w2) := run_in_executor ts w1 in
      (r :: rs, w2)
  end.

(** [await asyncio.gather]: the results in task order, or the
    exception of a task that raised. *)
Definition gather {A} (tasks : list (M A)) : M (list A) := λ w,
  let '(rs, w') := run_in_executor tasks w in
  (comprehension (λ r, r) rs, w').

Definition run_fetch_app_ids_tasks (urls : list string) (app_ids_dir : string)
  : M unit :=
  let tasks := (λ url, fetch_app_ids_task url app_ids_dir) <$> urls in
  task_results ← gather tasks;
  let failed_task_size := count_occ bool_dec task_results false in
  print "";;
  if bool_decide (0 < failed_task_size)
  then print (pretty failed_task_size +:+ " failed tasks")
  else print ("All " +:+ pretty (length tasks) +:+ " tasks done").

(** *** [concat_all_app_ids] (lines 68-74) *)

(** [not i.startswith(".") and i.endswith(".txt")] *)
Definition is_record_name (i : string) : bool :=
  negb (Py.startswith i ".") && Py.endswith i ".txt".

Definition concat_all_app_ids (app_ids_dir app_ids_path : string) : M unit :=
  names ← os_listdir app_ids_dir;
  let all_app_ids_files :=
    Path.join app_ids_dir <$> filter (λ i, Is_true (is_record_name i)) names in
  let all_app_ids_files := merge_sort String.le all_app_ids_files in
  open_w app_ids_path;;
  for_each all_app_ids_files (λ file_path,
    data ← read file_path;
    write app_ids_path data).

(** *** [fetch_app_ids] from line 90 on

    [sitemap_parts_url] is the set lines 78-89 have loaded. *)

(** Line 93: the URLs whose file name is not among the records. *)
Fixpoint without_records (record_names : gset string) (urls : list string)
  : result (list string) :=
  match urls with
  | [] => Ok []
  | i :: rest =>
      name ← get_url_file_name i;
      kept ← without_records record_names rest;
      mret (if bool_decide (name ∈ record_names) then kept else i :: kept)
  end.

(** Line 92. *)
Definition record_names_of (names : list string) : gset string :=
  list_to_set (Py.drop_last (String.length ".txt")
                 <$> filter (λ i, Is_true (is_record_name i)) names).

(** Lines 90-93. *)
Definition check_records (sitemap_parts_url : gset string) (app_ids_dir : string)
  : M (list string) :=
  b ← os_path_isdir app_ids_dir;
  if b : bool then
    print "Checking records";;
    names ← os_listdir app_ids_dir;
    lift (without_records (record_names_of names) (elements sitemap_parts_url))
  else mret (elements sitemap_parts_url).

(** Lines 94-97. *)
Definition fetching (sitemap_parts_url : list string) (app_ids_dir : string)
  : M unit :=
  print "Fetching app ids";;
  if bool_decide (0 < length sitemap_parts_url) then
    run_fetch_app_ids_tasks (merge_sort String.le sitemap_parts_url) app_ids_dir;;
    print ""
  else mret ().

(** Lines 99-101. *)
Definition combining (app_ids_dir app_ids_path : string) : M unit :=
  b ← os_path_isfile app_ids_path;
  if negb b then
    concat_all_app_ids app_ids_dir app_ids_path;;
    print ""
  else mret ().

Definition fetch_app_ids (sitemap_parts_url : gset string)
    (app_ids_dir app_ids_path : string) : M unit :=
  pending ← check_records sitemap_parts_url app_ids_dir;
  fetching pending app_ids_dir;;
  print "Combining app ids";;
  combining app_ids_dir app_ids_path;;
  print "Done".

End Program.

(** ** The runs, described apart from the state

    What the task, the pool and the merge yield, as functions of the
    environment and of the files alone; the facts below tie them to the
    program. *)

Section Descriptions.
Context (E : Env).

(** The text a sequence of writes to [p] gets into the file, and whether
    every write went through. *)
Fixpoint written (p : string) (lines : list string) : string * bool :=
  match lines with
  | [] => ("", true)
  | l :: ls =>
      match write_cut E p l with
      | None => let '(d, ok) := written p ls in (l +:+ d, ok)
      | Some n => (substring 0 n l, false)
      end
  end.

(** Lines 36-40 apart from the file system: the identifiers the shard
    yields, or the exception that ends the attempt. *)
Definition shard_app_ids (url : string) : result (list string) :=
  raw ← or_raise URLError (urlopen E url);
  content ← or_raise BadGzipFile (gzip_decompress E raw);
  tree ← or_raise XMLSyntaxError (etree_fromstring E content);
  app_ids_of E (set_iter E (hrefs tree)).

(** Line 42, the list handed to [writelines]. *)
Definition record_lines (app_ids : list string) : list string :=
  (λ i, i +:+ nl) <$> app_ids.

(** Whether the attempt on [url] with target [p] goes through. *)
Definition task_ok (url p : string) : bool :=
  match shard_app_ids url with
  | Ok app_ids => open_w_ok E p && (written p (record_lines app_ids)).2
  | Raise _ => false
  end.

(** The files after the attempt. *)
Definition task_files (url p : string) (fs : gmap string string)
  : gmap string string :=
  match shard_app_ids url with
  | Ok app_ids =>
      if task_ok url p then <[p := Py.join (record_lines app_ids)]> fs
      else delete p fs
  | Raise _ => delete p fs
  end.

(** What the task on [url] returns or raises; it does not depend on the
    files. *)
Definition task_result (dir url : string) : result bool :=
  name ← get_url_file_name E url;
  mret (task_ok url (Path.join dir (name +:+ ".txt"))).

(** The files after the task on [url]. *)
Definition after_task (dir : string) (fs : gmap string string) (url : string)
  : gmap string string :=
  match get_url_file_name E url with
  | Ok name => task_files url (Path.join dir (name +:+ ".txt")) fs
  | Raise _ => fs
  end.

(** The URL has a file name: [urlparse] accepts it. *)
Definition has_key (url : string) : Prop :=
  ∃ name, get_url_file_name E url = Ok name.

(** Lines 72-74 apart from the state: the text the loop gets into the
    output, and how the loop ends. *)
Fixpoint merge_written (fs : gmap string string) (out : string)
    (file_paths : list string) : string * result unit :=
  match file_paths with
  | [] => ("", Ok ())
  | file_path :: rest =>
      match fs !! file_path with
      | None => ("", Raise FileNotFoundError)
      | Some data =>
          if open_r_ok E file_path then
            match write_cut E out data with
            | None =>
                let '(d, r) := merge_written fs out rest in (data +:+ d, r)
            | Some n => (substring 0 n data, Raise OSError)
            end
          else ("", Raise OSError)
      end
  end.


End Descriptions.

(** The record files of a directory, by name, in ascending order. *)
Definition record_files (fs : gmap string string) (dir : string) : list string :=
  merge_sort String.le
    (filter (λ i, Is_true (is_record_name i)) (entries fs dir)).


(** The state with the file at [p] set to [data]. *)
Definition put_file (p data : string) (w : World) : World :=
  mkWorld (<[p := data]> (files w)) (dirs w) (trace w).

(** ** A reference environment for the examples

    [urlparse] and [parse_qs] as they act on URLs of the plain shape
    [scheme://host/path?query#fragment] (no parameters, no percent escapes),
    a small network, sets that iterate over their members in the order of
    each one's last insertion and a directory listing in reverse order. *)

Module Ref.

(** [s.partition(c)]: the text before and after the first [c]. *)
Fixpoint partition (c : ascii) (s : string) : option (string * string) :=
  match s with
  | EmptyString => None
  | String a s' =>
      if Ascii.eqb a c then Some ("", s')
      else match partition c s' with
           | Some (l, r) => Some (String a l, r)
           | None => None
           end
  end.

Definition is_alpha (c : ascii) : bool :=
  let n := nat_of_ascii c in
  ((65 <=? n) && (n <=? 90) || (97 <=? n) && (n <=? 122))%nat.

Definition is_scheme_char (c : ascii) : bool :=
  let n := nat_of_ascii c in
  is_alpha c || ((48 <=? n) && (n <=? 57))%nat
  || Ascii.eqb c "+" || Ascii.eqb c "-" || Ascii.eqb c ".".

Fixpoint all_chars (P : ascii → bool) (s : string) : bool :=
  match s with
  | EmptyString => true
  | String a s' => P a && all_chars P s'
  end.

(** The text up to the first of [/], [?], [#], and the rest. *)
Fixpoint split_netloc (s : string) : string * string :=
  match s with
  | EmptyString => ("", "")
  | String a s' =>
      if Ascii.eqb a "/" || Ascii.eqb a "?" || Ascii.eqb a "#" then ("", s)
      else let '(l, r) := split_netloc s' in (String a l, r)
  end.

Definition split_scheme (url : string) : string * string :=
  match partition ":" url with
  | Some (String a s as sch, rest) =>
      if is_alpha a && all_chars is_scheme_char s then (sch, rest) else ("", url)
  | _ => ("", url)
  end.

Definition url_parse (url : string) : option ParseResult :=
  let '(sch, rest) := split_scheme url in
  let '(loc, rest) :=
    match Py.strip_prefix "//" rest with
    | Some r => split_netloc r
    | None => ("", rest)
    end in
  if xorb (Py.contains "[" loc) (Py.contains "]" loc) then None
  else
    let '(rest, frag) := default (rest, "") (partition "#" rest) in
    let '(rest, qry) := default (rest, "") (partition "?" rest) in
    Some (mkParseResult sch loc rest "" qry frag).

Fixpoint split_on (c : ascii) (s : string) : list string :=
  match s with
  | EmptyString => [""]
  | String a s' =>
      if Ascii.eqb a c then "" :: split_on c s'
      else match split_on c s' with
           | [] => [String a ""]
           | h :: t => String a h :: t
           end
  end.

(** Blank values are dropped, as [parse_qs] does by default. *)
Definition query_dict (qs : string) : gmap string (list string) :=
  foldl (λ d field,
           match partition "=" field with
           | Some (name, String a v) =>
               <[name := default [] (d !! name) ++ [String a v]]> d
           | _ => d
           end)
        ∅ (split_on "&" qs).

Definition link (href : string) : Element :=
  Elem "url" ∅ [Elem "link" {[ "href" := href ]} []].

Definition urlset (links : list string) : Element :=
  Elem "urlset" ∅ (link <$> links).

Definition details (id : string) : string :=
  "https://play.google.com/store/apps/details?id=" +:+ id.

Definition shard_A : string := "https://play.google.com/sitemaps/A.xml.gz".
Definition shard_B : string := "https://play.google.com/sitemaps/B.xml.gz".
Definition shard_C : string := "https://play.google.com/sitemaps/C.xml.gz".
(** A shard with a product link that carries no [id]. *)
Definition shard_D : string := "https://play.google.com/sitemaps/D.xml.gz".
(** A shard whose URL ends in a separator. *)
Definition shard_slash : string := "https://play.google.com/sitemaps/".

Definition fetch (url : string) : option string :=
  if String.eqb url shard_A then Some "gzip:A"
  else if String.eqb url shard_B then Some "gzip:B"
  else if String.eqb url shard_C then Some "A"
  else if String.eqb url shard_D then Some "gzip:D"
  else if String.eqb url shard_slash then Some "gzip:B"
  else None.

Definition gunzip (raw : string) : option string :=
  Py.strip_prefix "gzip:" raw.

Definition parse_xml (content : string) : option Element :=
  if String.eqb content "A" then
    Some (urlset [details "100"; "https://example.org/about"; details "200"])
  else if String.eqb content "B" then Some (urlset [details "300"])
  else if String.eqb content "D" then
    Some (urlset [details "400"; "https://play.google.com/store/apps/top"])
  else None.

Definition env : Env := {|
  urlparse := url_parse;
  parse_qs := query_dict;
  urlopen := fetch;
  gzip_decompress := gunzip;
  etree_fromstring := parse_xml;
  set_iter := remove_dups;
  listdir_order := reverse;
  open_w_ok := λ _, true;
  write_cut := λ _ _, None;
  open_r_ok := λ _, true
|}.

Definition cache : string := "GPAppId/app_ids_main".
Definition output : string := "GPAppId/app_ids_main.txt".

(** The state [main] hands over: the directories made, nothing fetched. *)
Definition fresh : World := mkWorld ∅ {[ "GPAppId"; cache ]} [].

(** The same, with a disk that fills up while the second line of shard A
    is being written. *)
Definition disk_full : Env :=
  mkEnv url_parse query_dict fetch gunzip parse_xml remove_dups reverse
        (λ _, true)
        (λ _ data, if String.eqb data ("200" +:+ nl) then Some 2 else None)
        (λ _, true).


(** The same again, with sets that iterate from the last member to the
    first. *)
Definition backwards : Env :=
  mkEnv url_parse query_dict fetch gunzip parse_xml
        (λ l, reverse (remove_dups l)) (λ l, l)
        (λ _, true) (λ _ _, None) (λ _, true).

(** A cache directory left by an earlier run: the records of A and B, a
    hidden file and a file of another kind. *)
Definition two_records : World :=
  mkWorld {[ "GPAppId/app_ids_main/A.xml.gz.txt" := "100" +:+ nl +:+ "200" +:+ nl;
             "GPAppId/app_ids_main/B.xml.gz.txt" := "300" +:+ nl;
             "GPAppId/app_ids_main/.hidden.txt" := "x";
             "GPAppId/app_ids_main/notes.md" := "y" ]}
          {[ "GPAppId"; cache ]} [].

(** A cache directory holding a record of shard A from an earlier run. *)
Definition stale : World :=
  mkWorld {[ "GPAppId/app_ids_main/A.xml.gz.txt" := "1" +:+ nl ]}
          {[ "GPAppId"; cache ]} [].

(** Runs the facts below are checked on. *)

Definition task_disk_full : result bool * World :=
  fetch_app_ids_task disk_full shard_A cache stale.


Definition have_output : World := put_file output "100" two_records.




Definition with_extra : World :=
  put_file (Path.join cache ".DS_Store") "z" two_records.

Definition shards_A_C : gset string := {[shard_A; shard_C]}.
Definition shards_A_B : gset string := {[shard_A; shard_B]}.
Definition shards_slash : gset string := {[shard_slash]}.

Definition check_stale : result (list string) * World :=
  check_records env shards_A_B cache stale.

Definition fetch_stale : result unit * World :=
  fetching env [shard_B] cache check_stale.2.

Definition first_run : result unit * World :=
  fetch_app_ids env shards_slash cache output fresh.

Definition second_run : result unit * World :=
  fetch_app_ids env shards_slash cache output first_run.2.

End Ref.

(** ** What a run does to the outside world *)

(** The network requests of a trace, in order. *)
Definition requests (tr : list Event) : list string :=
  omap (λ ev, match ev with EvUrlopen url => Some url | _ => None end) tr.

(** The lines a trace prints, in order. *)
Definition printed (tr : list Event) : list string :=
  omap (λ ev, match ev with EvPrint line => Some line | _ => None end) tr.

(** The event opens, writes or removes the file at [p]. *)
Definition touches (p : string) (ev : Event) : Prop :=
  ev = EvOpenW p ∨ (∃ data, ev = EvWrite p data) ∨ ev = EvRemove p.


(** Every event the computation adds to the trace satisfies [P]. *)
Definition emits {A} (P : Event → Prop) (m : M A) : Prop :=
  ∀ w, ∃ tr, trace (m w).2 = trace w ++ tr ∧ Forall P tr.

(** ** The sitemap index: [read_sitemap_loc_urls] and lines 78-89

    The first stage of [fetch_app_ids] goes through [aiohttp] and can
    raise exceptions the later stages cannot; it has a result type and a
    state of its own, with the later stages run inside. *)

(** An [lxml] element as line 25 sees it: tag in Clark notation, text,
    child elements. *)
#[warnings="-register-all"]
Inductive Node : Type :=
  | NodeOf (tag : string) (text : option string) (children : list Node).

Definition node_tag (n : Node) : string :=
  match n with NodeOf t _ _ => t end.

(** [e.text]: [None] for an element without text. *)
Definition node_text (n : Node) : option string :=
  match n with NodeOf _ t _ => t end.

(** The elements below [n], in document order. *)
Fixpoint descendants (n : Node) : list Node :=
  match n with
  | NodeOf _ _ cs =>
      (fix below (l : list Node) : list Node :=
         match l with
         | [] => []
         | c :: l' => c :: descendants c ++ below l'
         end) cs
  end.

Definition SITEMAP_LOC : string :=
  "{http://www.sitemaps.org/schemas/sitemap/0.9}loc".

(** [tree.xpath(".//sitemap:loc", namespaces=SITEMAP_NS)] *)
Definition xpath_loc (tree : Node) : list Node :=
  filter (λ n, node_tag n = SITEMAP_LOC) (descendants tree).

Inductive error : Type :=
  | Std (e : exn)  (* an exception the later stages know *)
  | NetworkError   (* aiohttp: the request or the reading of the response *)
  | TypeError      (* None where a str is needed *).

Inductive outcome (A : Type) : Type :=
  | Returned (a : A)
  | Raised (e : error).
Arguments Returned {A} a.
Arguments Raised {A} e.

(** The state, with the requests made through the [aiohttp] session, in
    order. *)
Record Session : Type := mkSession {
  world : World;
  gets : list string
}.

(** What the first stage and [main] use beyond [Env]. *)
Record Sys : Type := mkSys {
  (** [session.get(url)] followed by [response.read()]; [None] on any
      error. *)
  session_get : string → option string;
  (** [etree.fromstring], seen with the text of the elements; [None] when
      the payload is not XML. *)
  index_fromstring : string → option Node;
  (** [str.strip()] *)
  strip : string → string;
  (** The lines [response.content] yields for [session.get(url)], and
      whether the body arrives whole; [None] when the request fails. *)
  content_lines : string → option (list string * bool);
  (** [bytes.decode()]; [None] when the bytes are not UTF-8. *)
  decode : string → option string;
  (** Whether [os.makedirs] may create the directory. *)
  makedirs_ok : string → bool
}.

Definition L (A : Type) : Type := Session → outcome A * Session.

Global Instance L_ret : MRet L := λ A a s, (Returned a, s).
Global Instance L_bind : MBind L := λ A B f m s,
  match m s with
  | (Returned a, s') => f a s'
  | (Raised e, s') => (Raised e, s')
  end.

(** A step of the later stages, run inside the first. *)
Definition run {A} (m : M A) : L A := λ s,
  match m (world s) with
  | (Ok a, w) => (Returned a, mkSession w (gets s))
  | (Raise e, w) => (Raised (Std e), mkSession w (gets s))
  end.

Definition done {A} (o : outcome A) : L A := λ s, (o, s).

(** [s[n:]] *)
Fixpoint slice_from (n : nat) (s : string) : string :=
  match n, s with
  | 0, _ => s
  | S n', String _ s' => slice_from n' s'
  | S _, EmptyString => EmptyString
  end.

(** The directories above [s], each as the text before one of its
    separators, with [pre] the text already passed. *)
Fixpoint ancestors_from (pre s : string) : list string :=
  match s with
  | EmptyString => []
  | String c s' =>
      (if Ascii.eqb c Path.sep && negb (String.eqb pre "") then [pre] else [])
      ++ ancestors_from (pre +:+ String c "") s'
  end.

(** [f.readlines()] on a text file: a line ends at a line feed, a carriage
    return or both, read as a line feed; the last line may have none. *)
Fixpoint lines_of (s : string) : list string :=
  match s with
  | EmptyString => []
  | String c s' =>
      if Ascii.eqb c (ascii_of_nat 10) then nl :: lines_of s'
      else if Ascii.eqb c (ascii_of_nat 13) then
        match s' with
        | String c' s'' =>
            if Ascii.eqb c' (ascii_of_nat 10) then nl :: lines_of s''
            else nl :: lines_of s'
        | EmptyString => [nl]
        end
      else match lines_of s' with
           | [] => [String c ""]
           | l :: ls => String c l :: ls
           end
  end.

(** The state after line 79. *)
Definition announced (s : Session) : Session :=
  mkSession (mkWorld (files (world s)) (dirs (world s))
                     (trace (world s) ++ [EvPrint "Loading sitemap urls"]))
            (gets s).

Section Loading.
Context (E : Env) (W : Sys).

(** [os.path.exists] *)
Definition os_path_exists (p : string) : M bool := λ w,
  (Ok (bool_decide (is_Some (files w !! p) ∨ p ∈ dirs w)), w).

(** [open(p, "r")] then [f.readlines()]; opening a directory raises
    [IsADirectoryError], an [OSError]. *)
Definition readlines (p : string) : M (list string) := λ w,
  match files w !! p with
  | Some data =>
      if open_r_ok E p then
        (Ok (lines_of data), mkWorld (files w) (dirs w) (trace w ++ [EvRead p]))
      else (Raise OSError, w)
  | None =>
      (Raise (if bool_decide (p ∈ dirs w) then OSError else FileNotFoundError), w)
  end.

(** [session.get(url)] and [response.read()] *)
Definition get (url : string) : L string := λ s,
  let s' := mkSession (world s) (gets s ++ [url]) in
  match session_get W url with
  | Some raw => (Returned raw, s')
  | None => (Raised NetworkError, s')
  end.

(** *** [read_sitemap_loc_urls] (lines 21-25) *)

Definition read_sitemap_loc_urls (url : string) : L (list (option string)) :=
  raw ← get url;
  tree ← done (match index_fromstring W raw with
               | Some tree => Returned tree
               | None => Raised (Std XMLSyntaxError)
               end);
  mret (node_text <$> xpath_loc tree).

(** *** [fetch_app_ids], lines 78-89 *)

(** Lines 85-86. *)
Fixpoint read_all (sitemaps_url : list string)
    (sitemap_parts_url : gset (option string)) : L (gset (option string)) :=
  match sitemaps_url with
  | [] => mret sitemap_parts_url
  | sitemap_url :: rest =>
      texts ← read_sitemap_loc_urls sitemap_url;
      read_all rest (sitemap_parts_url ∪ list_to_set texts)
  end.

(** The members of the set that are strings. *)
Definition strings (sitemap_parts_url : gset (option string)) : gset string :=
  list_to_set (omap id (elements sitemap_parts_url)).

(** The argument of [writelines] at line 88; with [None] in the set,
    [sorted] or the concatenation raises [TypeError]. *)
Definition sorted_lines (sitemap_parts_url : gset (option string))
  : outcome (list string) :=
  if bool_decide (None ∈ sitemap_parts_url) then Raised TypeError
  else Returned ((λ line, line +:+ nl)
                   <$> merge_sort String.le (elements (strings sitemap_parts_url))).

(** Lines 79-89: the set of shard URLs, from the cache file when there is
    one, from the sitemaps otherwise. *)
Definition load_sitemap_parts_url (sitemaps_url : list string)
    (sitemaps_path : string) : L (gset string) :=
  run (print "Loading sitemap urls");;
  b ← run (os_path_exists sitemaps_path);
  if b : bool then
    lines ← run (readlines sitemaps_path);
    mret (list_to_set (strip W <$> lines))
  else
    sitemap_parts_url ← read_all sitemaps_url ∅;
    run (open_w E sitemaps_path);;
    lines ← done (sorted_lines sitemap_parts_url);
    run (writelines E sitemaps_path lines);;
    run (print "");;
    mret (strings sitemap_parts_url).

(** Lines 22-25 apart from the state: the texts of the [loc] elements of
    the sitemap at [url], or the exception that ends the load. *)
Definition loc_texts (url : string) : outcome (list (option string)) :=
  match session_get W url with
  | Some raw =>
      match index_fromstring W raw with
      | Some tree => Returned (node_text <$> xpath_loc tree)
      | None => Raised (Std XMLSyntaxError)
      end
  | None => Raised NetworkError
  end.

(** The text of the cache file for a set of URLs. *)
Definition sitemaps_text (urls : gset string) : string :=
  Py.join ((λ line, line +:+ nl) <$> merge_sort String.le (elements urls)).

(** [fetch_app_ids] as a whole (lines 77-102). *)
Definition fetch_app_ids_from (sitemaps_url : list string)
    (sitemaps_path app_ids_dir app_ids_path : string) : L unit :=
  sitemap_parts_url ← load_sitemap_parts_url sitemaps_url sitemaps_path;
  run (fetch_app_ids E sitemap_parts_url app_ids_dir app_ids_path).

(** *** [fetch_sitemaps_url] (lines 105-113) *)

Definition ROBOTS_TXT_URL : string := "https://play.google.com/robots.txt".

(** Lines 109-112 on the lines that arrive; a line that is not UTF-8
    raises [UnicodeDecodeError], a [ValueError]. *)
Fixpoint sitemap_lines (raw_lines : list string) : outcome (list string) :=
  match raw_lines with
  | [] => Returned []
  | raw_line :: rest =>
      match decode W raw_line with
      | Some text =>
          let line := strip W text in
          match sitemap_lines rest with
          | Returned result =>
              Returned (if Py.startswith line "Sitemap: "
                        then strip W (slice_from (String.length "Sitemap: ") line)
                             :: result
                        else result)
          | Raised e => Raised e
          end
      | None => Raised (Std ValueError)
      end
  end.

Definition fetch_sitemaps_url : L (list string) := λ s,
  let s' := mkSession (world s) (gets s ++ [ROBOTS_TXT_URL]) in
  match content_lines W ROBOTS_TXT_URL with
  | Some (raw_lines, whole) =>
      match sitemap_lines raw_lines with
      | Returned result =>
          if whole : bool then (Returned result, s') else (Raised NetworkError, s')
      | Raised e => (Raised e, s')
      end
  | None => (Raised NetworkError, s')
  end.

(** *** [main] (lines 116-140) *)

(** [os.makedirs(p)]: the directory and those above it; with something at
    [p] already it raises [FileExistsError], an [OSError]. *)
Definition os_makedirs (p : string) : M unit := λ w,
  if bool_decide (is_Some (files w !! p) ∨ p ∈ dirs w) then (Raise OSError, w)
  else if makedirs_ok W p then
    (Ok (), mkWorld (files w)
                    (dirs w ∪ {[p]} ∪ list_to_set (ancestors_from "" p))
                    (trace w))
  else (Raise OSError, w).

Definition main : L unit :=
  let output_dir := "GPAppId" in
  b ← run (os_path_isdir output_dir);
  (if negb b then run (os_makedirs output_dir) else mret ());;
  let sitemaps_path := Path.join output_dir "sitemaps.txt" in
  let task_name := "main" in
  let app_ids_dir := Path.join output_dir ("app_ids_" +:+ task_name) in
  let app_ids_path := Path.join output_dir ("app_ids_" +:+ task_name +:+ ".txt") in
  b ← run (os_path_isdir app_ids_dir);
  (if negb b then run (os_makedirs app_ids_dir) else mret ());;
  run (print ("Task: " +:+ task_name));;
  run (print ("Cache dir: " +:+ app_ids_dir));;
  run (print ("Output file: " +:+ app_ids_path));;
  run (print "Fetching sitemaps url");;
  sitemaps_url ← fetch_sitemaps_url;
  run (print "Fetching app ids");;
  fetch_app_ids_from sitemaps_url sitemaps_path app_ids_dir app_ids_path.

End Loading.

(** ** Further runs in the reference environment *)

Module Case.

(** A second URL with the file name of shard A, which the network does not
    serve. *)
Definition mirror_A : string := "https://play.google.com/mirror/A.xml.gz".

(** A URL [urlparse] rejects: the bracket of its host is not closed. *)
Definition bad_url : string := "https://[play.google.com/sitemaps/E.xml.gz".

Definition shards_A_bad : gset string := {[Ref.shard_A; bad_url]}.

(** The record of shard A from an earlier run and an output merged then. *)
Definition stale_output : World := put_file Ref.output "old" Ref.stale.

(** Shard A is fetched, shard C fails. *)
Definition check_fresh : result (list string) * World :=
  check_records Ref.env Ref.shards_A_C Ref.cache Ref.fresh.

Definition fetch_fresh : result unit * World :=
  fetching Ref.env [Ref.shard_C; Ref.shard_A] Ref.cache check_fresh.2.

Definition check_again : result (list string) * World :=
  check_records Ref.env Ref.shards_A_C Ref.cache fetch_fresh.2.


(** The sitemap index: one sitemap that lists shards A and B, one with a
    [loc] element that has no text, and [robots.txt] naming the first. *)
Definition index_0 : string := "https://play.google.com/sitemaps/index-0.xml".
Definition index_1 : string := "https://play.google.com/sitemaps/index-1.xml".

Definition loc (text : option string) : Node :=
  NodeOf "{http://www.sitemaps.org/schemas/sitemap/0.9}sitemap" None
    [NodeOf SITEMAP_LOC text [];
     NodeOf "{http://www.sitemaps.org/schemas/sitemap/0.9}lastmod"
       (Some "2024-01-01") []].

Definition sitemapindex (texts : list (option string)) : Node :=
  NodeOf "{http://www.sitemaps.org/schemas/sitemap/0.9}sitemapindex" None
    (loc <$> texts).

Definition is_space (c : ascii) : bool :=
  let n := nat_of_ascii c in ((9 <=? n) && (n <=? 13) || (n =? 32))%nat.

Fixpoint lstrip (s : string) : string :=
  match s with
  | String c s' => if is_space c then lstrip s' else s
  | EmptyString => EmptyString
  end.

Fixpoint rstrip (s : string) : string :=
  match s with
  | String c s' =>
      match rstrip s' with
      | EmptyString => if is_space c then EmptyString else String c EmptyString
      | r => String c r
      end
  | EmptyString => EmptyString
  end.

(** [str.strip()] on text whose white space is ASCII. *)
Definition ascii_strip (s : string) : string := rstrip (lstrip s).

Definition sys : Sys := {|
  session_get := λ url,
    if String.eqb url index_0 then Some "index:0"
    else if String.eqb url index_1 then Some "index:1"
    else None;
  index_fromstring := λ raw,
    if String.eqb raw "index:0"
    then Some (sitemapindex [Some Ref.shard_B; Some Ref.shard_A; Some Ref.shard_B])
    else if String.eqb raw "index:1"
    then Some (sitemapindex [Some Ref.shard_A; None])
    else None;
  strip := ascii_strip;
  content_lines := λ url,
    if String.eqb url ROBOTS_TXT_URL
    then Some (["User-agent: *" +:+ nl;
                "Disallow: /store/apps/private" +:+ nl;
                "Sitemap: " +:+ index_0 +:+ nl], true)
    else None;
  decode := Some;
  makedirs_ok := λ _, true
|}.

(** The same with the network down. *)
Definition offline : Sys :=
  mkSys (λ _, None) (index_fromstring sys) ascii_strip (λ _, None) Some (λ _, true).

(** The same with a [robots.txt] whose first line is Latin-1. *)
Definition latin1_line : string :=
  "# caf" +:+ String (ascii_of_nat 233) "" +:+ nl.

Definition robots_latin1 : list string :=
  [latin1_line; "Sitemap: " +:+ index_0 +:+ nl].

Definition latin1 : Sys :=
  mkSys (session_get sys) (index_fromstring sys) ascii_strip
        (λ _, Some (robots_latin1, true))
        (λ raw, if Py.contains (ascii_of_nat 233) raw then None else Some raw)
        (λ _, true).

Definition sitemaps : string := "GPAppId/sitemaps.txt".

Definition start : Session := mkSession Ref.fresh [].

Definition live_load : outcome (gset string) * Session :=
  load_sitemap_parts_url Ref.env sys [index_0] sitemaps start.

Definition load_missing : outcome (gset string) * Session :=
  load_sitemap_parts_url Ref.env sys
    ["https://play.google.com/sitemaps/index-2.xml"] sitemaps start.

Definition read_textless : outcome (gset (option string)) * Session :=
  read_all sys [index_1] ∅ (announced start).

Definition load_textless : outcome (gset string) * Session :=
  load_sitemap_parts_url Ref.env sys [index_1] sitemaps start.


(** The records of A and B, an old output and a cache file that names
    shard A. *)
Definition resumed : Session :=
  mkSession (put_file sitemaps (Ref.shard_A +:+ nl) Ref.have_output) [].

End Case.

(** ** Values on small inputs *)

Example basename_gz :
  Path.basename "/sitemaps/play_sitemaps_2024_00000-of-77447.xml.gz"
  = "play_sitemaps_2024_00000-of-77447.xml.gz".
Proof. reflexivity. Qed.

Example basename_trailing : Path.basename "/sitemaps/" = "".
Proof. reflexivity. Qed.

Example join_plain : Path.join "GPAppId/app_ids_main" "a.txt" = "GPAppId/app_ids_main/a.txt".
Proof. reflexivity. Qed.

Example drop_last_txt : Py.drop_last (String.length ".txt") "a.xml.gz.txt" = "a.xml.gz".
Proof. reflexivity. Qed.

(** ** Facts about strings and paths *)

Section StringFacts.

Lemma ascii_eqb_true (a b : ascii) : Ascii.eqb a b = true ↔ a = b.
Proof. apply Ascii.eqb_eq. Qed.

Lemma app_nil_r (s : string) : s +:+ "" = s.
Proof. induction s as [|a s IH]; simpl; [done|]. by rewrite IH. Qed.

Lemma app_assoc (a b c : string) : a +:+ (b +:+ c) = (a +:+ b) +:+ c.
Proof. induction a as [|x a IH]; simpl; [done|]. by rewrite IH. Qed.

Lemma app_length (a b : string) :
  String.length (a +:+ b) = String.length a + String.length b.
Proof. induction a as [|x a IH]; simpl; [done|]. by rewrite IH. Qed.

Lemma startswith_spec (s p : string) :
  Py.startswith s p = true ↔ ∃ r, s = p +:+ r.
Proof.
  revert s. induction p as [|a p IH]; intros s.
  - destruct s; simpl; (split; [eauto | done]).
  - destruct s as [|b s]; simpl.
    + split; [done | by intros [r Hr]].
    + destruct (Ascii.eqb a b) eqn:Hab.
      * apply ascii_eqb_true in Hab as ->. rewrite IH.
        split; intros [r Hr]; exists r; [by rewrite Hr | by injection Hr].
      * split; [done | intros [r Hr]]. injection Hr as -> _.
        by rewrite Ascii.eqb_refl in Hab.
Qed.

Lemma strip_prefix_spec (p s n : string) :
  Py.strip_prefix p s = Some n ↔ s = p +:+ n.
Proof.
  revert s. induction p as [|a p IH]; intros s.
  - destruct s; simpl; (split; [by intros [= ->] | by intros ->]).
  - destruct s as [|b s]; simpl; [done|].
    destruct (Ascii.eqb a b) eqn:Hab.
    + apply ascii_eqb_true in Hab as ->. rewrite IH.
      split; [by intros -> | by intros [= ->]].
    + split; [done | intros [= -> _]]. by rewrite Ascii.eqb_refl in Hab.
Qed.

Lemma endswith_unfold (s suf : string) :
  Py.endswith s suf =
    if String.eqb s suf then true
    else match s with
         | EmptyString => false
         | String _ s' => Py.endswith s' suf
         end.
Proof. by destruct s. Qed.

Lemma endswith_spec (s suf : string) :
  Py.endswith s suf = true ↔ ∃ r, s = r +:+ suf.
Proof.
  induction s as [|a s IH]; rewrite endswith_unfold.
  - destruct (String.eqb_spec "" suf) as [<- | Hne].
    + split; [intros _; by exists "" | done].
    + split; [done | intros [r Hr]]. destruct r; simpl in Hr; done.
  - destruct (String.eqb_spec (String a s) suf) as [<- | Hne].
    + split; [intros _; by exists "" | done].
    + rewrite IH. split.
      * intros [r ->]. by exists (String a r).
      * intros [r Hr]. destruct r as [|b r]; simpl in Hr; [done|].
        injection Hr as _ ->. by exists r.
Qed.

Lemma substring_app_l (r suf : string) :
  substring 0 (String.length r) (r +:+ suf) = r.
Proof.
  induction r as [|a r IH]; simpl.
  - by destruct suf.
  - by rewrite IH.
Qed.

Lemma drop_last_app (r suf : string) :
  Py.drop_last (String.length suf) (r +:+ suf) = r.
Proof.
  unfold Py.drop_last. rewrite app_length.
  replace (String.length r + String.length suf - String.length suf)
    with (String.length r) by lia.
  apply substring_app_l.
Qed.

Lemma contains_app (c : ascii) (a b : string) :
  Py.contains c (a +:+ b) = Py.contains c a || Py.contains c b.
Proof.
  induction a as [|x a IH]; simpl; [done|].
  destruct (Ascii.eqb x c); [done | apply IH].
Qed.

(** The base name is what follows the last separator of the path. *)
Lemma basename_spec (p : string) :
  ∃ pre, p = pre +:+ Path.basename p
         ∧ Py.contains Path.sep (Path.basename p) = false
         ∧ (pre = "" ∨ Py.endswith pre "/" = true).
Proof.
  induction p as [|c p (pre & Hp & Hno & Hpre)]; simpl.
  - exists "". auto.
  - destruct (Py.contains Path.sep p) eqn:Hc.
    + exists (String c pre). split; [simpl; by rewrite <-Hp|].
      split; [done|]. right. destruct Hpre as [-> | Hpre].
      * simpl in Hp. rewrite <-Hp, Hc in Hno. done.
      * apply endswith_spec in Hpre as [r ->].
        apply endswith_spec. by exists (String c r).
    + destruct (Ascii.eqb c Path.sep) eqn:Hsep.
      * apply ascii_eqb_true in Hsep as ->. exists "/". auto.
      * exists "". simpl. rewrite Hsep, Hc. auto.
Qed.

Lemma basename_no_sep (p : string) :
  Py.contains Path.sep (Path.basename p) = false.
Proof. by destruct (basename_spec p) as (? & ? & ? & ?). Qed.

(** Joining a relative name puts it behind the directory prefix. *)
Lemma join_relative (d n : string) :
  Py.startswith n "/" = false → Path.join d n = Path.join d "" +:+ n.
Proof.
  intros Hn. unfold Path.join. rewrite Hn. simpl.
  destruct (String.eqb d "" || Py.endswith d "/").
  - by rewrite app_nil_r.
  - by rewrite <-!app_assoc.
Qed.

Lemma no_sep_relative (n : string) :
  Py.contains Path.sep n = false → Py.startswith n "/" = false.
Proof.
  destruct n as [|a n]; simpl; [done|]. rewrite (Ascii.eqb_sym "/" a).
  unfold Path.sep. by destruct (Ascii.eqb a "/").
Qed.

Lemma compare_app (p a b : string) :
  String.compare (p +:+ a) (p +:+ b) = String.compare a b.
Proof.
  induction p as [|c p IH]; simpl; [done|].
  assert (Ascii.compare c c = Eq) as ->; [|done].
  unfold Ascii.compare. apply N.compare_refl.
Qed.

Lemma le_app (p a b : string) :
  String.le (p +:+ a) (p +:+ b) ↔ String.le a b.
Proof. unfold String.le, String.leb. by rewrite compare_app. Qed.

End StringFacts.


(** ** What a run does to the files *)

Section Runs.
Context (E : Env).

Lemma written_complete (p : string) (lines : list string) :
  (written E p lines).2 = true → (written E p lines).1 = Py.join lines.
Proof.
  induction lines as [|l ls IH]; simpl; [done|].
  destruct (write_cut E p l); [done|].
  destruct (written E p ls) as [d ok]; simpl in *. by intros ->%IH.
Qed.

Lemma bind_run {A B} (m : M A) (f : A → M B) (w : World) :
  (m ≫= f) w = match m w with
               | (Ok a, w') => f a w'
               | (Raise e, w') => (Raise e, w')
               end.
Proof. done. Qed.

Lemma write_run (p data old : string) (w : World) :
  files w !! p = Some old →
  write E p data w =
    match write_cut E p data with
    | None =>
        (Ok (), mkWorld (<[p := old +:+ data]> (files w)) (dirs w)
                        (trace w ++ [EvWrite p data]))
    | Some n =>
        (Raise OSError,
         mkWorld (<[p := old +:+ substring 0 n data]> (files w)) (dirs w)
                 (trace w ++ [EvWrite p (substring 0 n data)]))
    end.
Proof. intros Hold. unfold write. by rewrite Hold. Qed.

Lemma writelines_run (p : string) (lines : list string) (w : World) (old : string) :
  files w !! p = Some old →
  ∃ tr,
    writelines E p lines w =
      (if (written E p lines).2 then Ok () else Raise OSError,
       mkWorld (<[p := old +:+ (written E p lines).1]> (files w)) (dirs w)
               (trace w ++ tr)).
Proof.
  revert w old. unfold writelines.
  induction lines as [|l ls IH]; intros w old Hold; simpl.
  - exists []. rewrite app_nil_r, insert_id by done.
    rewrite (right_id_L [] (++)). by destruct w.
  - rewrite bind_run, (write_run _ _ old) by done.
    destruct (write_cut E p l) as [n|]; simpl.
    + by eexists.
    + edestruct (IH (mkWorld (<[p:=old +:+ l]> (files w)) (dirs w)
                 (trace w ++ [EvWrite p l])) (old +:+ l)) as [tr Htr];
        [simpl; by rewrite lookup_insert_eq|].
      rewrite Htr. simpl. destruct (written E p ls) as [d ok]; simpl.
      exists (EvWrite p l :: tr).
      by rewrite insert_insert_eq, <-app_assoc, <-(assoc_L (++)).
Qed.

(** The [except] branch of the task. *)
Lemma handler_run (p : string) (w : World) :
  ∃ tr,
    (os_path_isfile p ≫= λ b : bool,
       (if b then os_remove p else mret ()) ≫= λ _, mret false) w
    = (Ok false, mkWorld (delete p (files w)) (dirs w) (trace w ++ tr)).
Proof.
  rewrite bind_run. unfold os_path_isfile.
  destruct (files w !! p) as [old|] eqn:Hp.
  - rewrite bool_decide_eq_true_2 by eauto.
    rewrite bind_run. unfold os_remove. rewrite Hp. by eexists.
  - rewrite bool_decide_eq_false_2 by (by intros [? ?]).
    exists []. rewrite delete_id by done.
    rewrite (right_id_L [] (++)). by destruct w.
Qed.

Lemma fetch_app_ids_task_raise (url dir : string) (w : World) (e : exn) :
  get_url_file_name E url = Raise e →
  fetch_app_ids_task E url dir w = (Raise e, w).
Proof.
  intros Hname. unfold fetch_app_ids_task.
  rewrite bind_run. unfold lift. by rewrite Hname.
Qed.

(** Lines 36-40 touch nothing but the network. *)
Lemma extract_run {A} (url : string) (k : list string → M A) (w : World) :
  let w1 := mkWorld (files w) (dirs w) (trace w ++ [EvUrlopen url]) in
  (raw ← urlopen_read E url;
   content ← lift (or_raise BadGzipFile (gzip_decompress E raw));
   tree ← lift (or_raise XMLSyntaxError (etree_fromstring E content));
   app_ids ← lift (app_ids_of E (set_iter E (hrefs tree)));
   k app_ids) w
  = match shard_app_ids E url with
    | Ok app_ids => k app_ids w1
    | Raise e => (Raise e, w1)
    end.
Proof.
  intros w1. unfold shard_app_ids.
  rewrite bind_run. unfold urlopen_read. fold w1.
  destruct (urlopen E url) as [raw|]; simpl; [|done].
  rewrite bind_run. unfold lift at 1.
  destruct (gzip_decompress E raw) as [content|]; simpl; [|done].
  rewrite bind_run. unfold lift at 1.
  destruct (etree_fromstring E content) as [tree|]; simpl; [|done].
  rewrite bind_run. unfold lift at 1.
  by destruct (app_ids_of E (set_iter E (hrefs tree))).
Qed.

(** Lines 41-43. *)
Lemma persist_run (p : string) (lines : list string) (w : World) :
  open_w_ok E p = true →
  ∃ tr,
    (open_w E p;; writelines E p lines;; mret true) w
    = (if (written E p lines).2 then Ok true else Raise OSError,
       mkWorld (<[p := (written E p lines).1]> (files w)) (dirs w)
               (trace w ++ tr)).
Proof.
  intros Hopen. rewrite bind_run. unfold open_w. rewrite Hopen.
  rewrite bind_run.
  edestruct (writelines_run p lines
    (mkWorld (<[p:=""]> (files w)) (dirs w) (trace w ++ [EvOpenW p])) "")
    as [tr ->]; [simpl; by rewrite lookup_insert_eq|].
  simpl. rewrite insert_insert_eq, <-(assoc_L (++)).
  exists ([EvOpenW p] ++ tr). by destruct (written E p lines).2.
Qed.

Lemma persist_fail (p : string) (lines : list string) (w : World) :
  open_w_ok E p = false →
  (open_w E p;; writelines E p lines;; mret true) w = (Raise OSError, w).
Proof. intros Hopen. rewrite bind_run. unfold open_w. by rewrite Hopen. Qed.

Lemma fetch_app_ids_task_run (url dir name : string) (w : World) :
  get_url_file_name E url = Ok name →
  let p := Path.join dir (name +:+ ".txt") in
  ∃ tr,
    fetch_app_ids_task E url dir w =
      (Ok (task_ok E url p),
       mkWorld (task_files E url p (files w)) (dirs w)
               (trace w ++ EvUrlopen url :: tr)).
Proof.
  intros Hname p. unfold fetch_app_ids_task.
  rewrite bind_run. unfold lift at 1. rewrite Hname. fold p.
  unfold try_except. rewrite extract_run.
  unfold task_files, task_ok.
  set (w1 := mkWorld (files w) (dirs w) (trace w ++ [EvUrlopen url])).
  destruct (shard_app_ids E url) as [app_ids|e].
  - fold (record_lines app_ids).
    destruct (open_w_ok E p) eqn:Hopen; simpl.
    + destruct (persist_run p (record_lines app_ids) w1 Hopen) as [tr ->].
      destruct (written E p (record_lines app_ids)).2 eqn:Hw.
      * rewrite written_complete by done. exists tr. simpl.
        by rewrite <-(assoc_L (++)).
      * edestruct handler_run as [tr' ->]. simpl.
        rewrite delete_insert_eq. exists (tr ++ tr').
        by rewrite <-!(assoc_L (++)).
    + rewrite persist_fail by done.
      destruct (handler_run p w1) as [tr ->]. exists tr. simpl.
      by rewrite <-(assoc_L (++)).
  - destruct (handler_run p w1) as [tr ->]. exists tr. simpl.
    by rewrite <-(assoc_L (++)).
Qed.
End Runs.

(** C1. Whenever [fetch_app_ids_task] returns, the directories are as
    before and the files differ from those before at the target path only:
    after [False] the target path does not exist, after [True] it holds the
    whole record. No unfinished record survives a failed fetch, whatever made
    it fail. *)
Theorem fetch_task_all_or_nothing (E : Env) (url dir : string) (w w' : World)
    (b : bool) :
  fetch_app_ids_task E url dir w = (Ok b, w') →
  ∃ name,
    get_url_file_name E url = Ok name ∧
    let output_path := Path.join dir (name +:+ ".txt") in
    dirs w' = dirs w ∧
    if b then
      ∃ app_ids,
        files w' = <[output_path := Py.join ((λ i, i +:+ nl) <$> app_ids)]> (files w)
    else
      files w' !! output_path = None ∧ files w' = delete output_path (files w).
Proof.
  intros Hrun. destruct (get_url_file_name E url) as [name|e] eqn:Hname.
  - exists name. split; [done|].
    destruct (fetch_app_ids_task_run E url dir name w Hname) as [tr Htr].
    rewrite Htr in Hrun. injection Hrun as <- <-. simpl. split; [done|].
    unfold task_files, task_ok.
    destruct (shard_app_ids E url) as [app_ids|]; simpl.
    + destruct (open_w_ok E _ && _); [by exists app_ids|].
      by rewrite lookup_delete_eq.
    + by rewrite lookup_delete_eq.
  - by rewrite (fetch_app_ids_task_raise E url dir w e) in Hrun.
Qed.

Section Extraction.
Context (E : Env).

Lemma comprehension_Ok {A B} (f : A → result B) (l : list A) (ys : list B) :
  comprehension f l = Ok ys ↔ Forall2 (λ x y, f x = Ok y) l ys.
Proof.
  revert ys. induction l as [|x l IH]; intros ys; simpl.
  - split; [intros [= <-]; constructor | by intros ->%Forall2_nil_inv_l].
  - destruct (f x) as [y|e] eqn:Hx; simpl.
    + destruct (comprehension f l) as [zs|e] eqn:Hl; simpl;
        unfold mret, result_ret.
      * split.
        -- intros [= <-]. constructor; [done | by apply IH].
        -- intros (y' & zs' & Hy & Hzs & ->)%Forall2_cons_inv_l.
           apply IH in Hzs. congruence.
      * split; [done|].
        intros (y' & zs' & Hy & Hzs & ->)%Forall2_cons_inv_l.
        by apply IH in Hzs.
    + split; [done|].
      intros (y' & zs' & Hy & Hzs & ->)%Forall2_cons_inv_l. congruence.
Qed.

Lemma comprehension_Raise {A B} (f : A → result B) (l : list A) (x : A) (e : exn) :
  x ∈ l → f x = Raise e → ∃ e', comprehension f l = Raise e'.
Proof.
  intros Hx Hfx. destruct (comprehension f l) as [ys|e'] eqn:Hl; [|by eexists].
  apply comprehension_Ok in Hl.
  apply list_elem_of_lookup in Hx as [i Hi].
  destruct (Forall2_lookup_l _ _ _ _ _ Hl Hi) as (y & _ & Hy). congruence.
Qed.


End Extraction.


(** C6. A shard that arrives and parses but has a product link ("matches
    the prefix") without an [id] fails as a whole: the task returns [False]
    and no record of the shard exists afterwards, whatever other
    identifiers the shard holds. *)
Theorem malformed_entry_fails_shard (E : Env) (url dir name raw content href : string)
    (tree : Element) (w : World) :
  EnvOk E →
  get_url_file_name E url = Ok name →
  urlopen E url = Some raw →
  gzip_decompress E raw = Some content →
  etree_fromstring E content = Some tree →
  href ∈ hrefs tree →
  Py.startswith href STORE_APPS = true →
  (∀ r, urlparse E href = Some r → parse_qs E (query r) !! "id" = None) →
  ∃ w',
    fetch_app_ids_task E url dir w = (Ok false, w')
    ∧ files w' !! Path.join dir (name +:+ ".txt") = None
    ∧ files w' = delete (Path.join dir (name +:+ ".txt")) (files w).
Proof.
  intros HE Hname Hraw Hcontent Htree Hhref Hprefix Hid.
  assert (∃ e, app_id E href = Raise e) as [e He].
  { unfold app_id. destruct (urlparse E href) as [r|] eqn:Hr; simpl; [|by eexists].
    rewrite (Hid r) by done. by eexists. }
  assert (∃ e', shard_app_ids E url = Raise e') as [e' Hshard].
  { unfold shard_app_ids. rewrite Hraw; simpl. rewrite Hcontent; simpl.
    rewrite Htree; simpl. unfold app_ids_of.
    apply (comprehension_Raise _ _ href e); [|done].
    apply list_elem_of_filter. split; [by apply Is_true_true|].
    by apply (set_iter_elem E HE). }
  destruct (fetch_app_ids_task_run E url dir name w Hname) as [tr Htr].
  eexists. split; [|split].
  - rewrite Htr. unfold task_ok. by rewrite Hshard.
  - simpl. unfold task_files. rewrite Hshard. apply lookup_delete_eq.
  - simpl. unfold task_files. by rewrite Hshard.
Qed.

(** ** The pool *)

Section Pool.
Context (E : Env) (dir : string).

Lemma task_run (url : string) (w : World) :
  ∃ tr,
    fetch_app_ids_task E url dir w =
      (task_result E dir url,
       mkWorld (after_task E dir (files w) url) (dirs w) (trace w ++ tr))
    ∧ ((∃ name, get_url_file_name E url = Ok name) → EvUrlopen url ∈ tr).
Proof.
  unfold task_result, after_task.
  destruct (get_url_file_name E url) as [name|e] eqn:Hname; simpl.
  - destruct (fetch_app_ids_task_run E url dir name w Hname) as [tr ->].
    exists (EvUrlopen url :: tr). split; [done|].
    intros _. apply list_elem_of_here.
  - rewrite (fetch_app_ids_task_raise E url dir w e) by done.
    exists []. rewrite (right_id_L [] (++)). split; [by destruct w|].
    by intros [? ?].
Qed.

Lemma run_in_executor_cons {A} (t : M A) (ts : list (M A)) (w : World) :
  run_in_executor (t :: ts) w =
    ((t w).1 :: (run_in_executor ts (t w).2).1, (run_in_executor ts (t w).2).2).
Proof.
  simpl. destruct (t w) as [r w1]; simpl.
  by destruct (run_in_executor ts w1).
Qed.

Lemma run_in_executor_run (urls : list string) (w : World) :
  ∃ tr,
    run_in_executor ((λ url, fetch_app_ids_task E url dir) <$> urls) w =
      (task_result E dir <$> urls,
       mkWorld (foldl (after_task E dir) (files w) urls) (dirs w) (trace w ++ tr))
    ∧ ∀ url, url ∈ urls → (∃ name, get_url_file_name E url = Ok name) →
             EvUrlopen url ∈ tr.
Proof.
  revert w. induction urls as [|url urls IH]; intros w.
  - exists []. simpl. rewrite (right_id_L [] (++)). split; [by destruct w|].
    by intros ? ?%elem_of_nil.
  - rewrite fmap_cons, run_in_executor_cons.
    destruct (task_run url w) as (tr1 & -> & Hin1). simpl.
    destruct (IH (mkWorld (after_task E dir (files w) url) (dirs w) (trace w ++ tr1)))
      as (tr2 & -> & Hin2).
    exists (tr1 ++ tr2). simpl. rewrite (assoc_L (++)). split; [done|].
    intros u [-> | Hu]%elem_of_cons Hname; apply elem_of_app; eauto.
Qed.

Lemma comprehension_id_Ok {A} (l : list A) :
  comprehension (λ r : result A, r) (Ok <$> l) = Ok l.
Proof. apply comprehension_Ok. by apply Forall2_fmap_l, Forall_Forall2_diag, Forall_true. Qed.


End Pool.


(** ** The cache directory *)

Section Listing.
Context (E : Env) (HE : EnvOk E).

Lemma entry_name_spec (d p n : string) :
  entry_name d p = Some n ↔
  p = Path.join d n ∧ Py.contains Path.sep n = false ∧ n ≠ "".
Proof.
  unfold entry_name. split.
  - destruct (Py.strip_prefix (Path.join d "") p) as [n'|] eqn:Hp; [|done].
    apply strip_prefix_spec in Hp as ->.
    destruct (Py.contains Path.sep n') eqn:Hsep; simpl; [done|].
    destruct (String.eqb_spec n' ""); simpl; [done|]. intros [= ->].
    by rewrite (join_relative d n) by by apply no_sep_relative.
  - intros (-> & Hsep & Hne).
    rewrite (join_relative d n) by by apply no_sep_relative.
    rewrite (proj2 (strip_prefix_spec _ _ n)) by done. rewrite Hsep. simpl.
    by destruct (String.eqb_spec n "").
Qed.

Lemma elem_of_entries (fs : gmap string string) (d n : string) :
  n ∈ entries fs d ↔
  Py.contains Path.sep n = false ∧ n ≠ "" ∧ is_Some (fs !! Path.join d n).
Proof.
  unfold entries. rewrite list_elem_of_omap. split.
  - intros (p & Hp & (-> & ? & ?)%entry_name_spec).
    by apply elem_of_elements, elem_of_dom in Hp.
  - intros (? & ? & Hfs). exists (Path.join d n). split.
    + by apply elem_of_elements, elem_of_dom.
    + by apply entry_name_spec.
Qed.

Lemma NoDup_omap_inj {A B} (f : A → option B) (l : list A) :
  (∀ x y z, f x = Some z → f y = Some z → x = y) →
  NoDup l → NoDup (omap f l).
Proof.
  intros Hinj. induction 1 as [|x l Hx Hl IH]; simpl; [constructor|].
  destruct (f x) as [z|] eqn:Hfx; [|done]. constructor; [|done].
  intros (y & Hy & Hfy)%list_elem_of_omap.
  by rewrite (Hinj x y z) in Hx.
Qed.

Lemma NoDup_entries (fs : gmap string string) (d : string) :
  NoDup (entries fs d).
Proof.
  apply NoDup_omap_inj; [|apply NoDup_elements].
  intros p q n (-> & _)%entry_name_spec (-> & _)%entry_name_spec. done.
Qed.

Lemma join_entry (d n : string) :
  Py.contains Path.sep n = false → Path.join d n = Path.join d "" +:+ n.
Proof. intros. by apply join_relative, no_sep_relative. Qed.

Lemma join_entry_inj (d n1 n2 : string) :
  Py.contains Path.sep n1 = false → Py.contains Path.sep n2 = false →
  Path.join d n1 = Path.join d n2 → n1 = n2.
Proof.
  intros H1 H2. rewrite (join_entry d n1), (join_entry d n2) by done.
  apply (inj (String.app _)).
Qed.

Lemma elem_of_record_files (fs : gmap string string) (d n : string) :
  n ∈ record_files fs d ↔ n ∈ entries fs d ∧ is_record_name n = true.
Proof.
  unfold record_files. rewrite merge_sort_Permutation, list_elem_of_filter.
  rewrite Is_true_true. tauto.
Qed.

Lemma NoDup_record_files (fs : gmap string string) (d : string) :
  NoDup (record_files fs d).
Proof.
  unfold record_files. rewrite merge_sort_Permutation.
  apply NoDup_filter, NoDup_entries.
Qed.

Lemma Sorted_record_files (fs : gmap string string) (d : string) :
  StronglySorted String.le (record_files fs d).
Proof. apply StronglySorted_merge_sort; apply _. Qed.

(** Lines 69-70: sorting the joined paths of whatever order the listing
    came in is listing the record files by name. *)
Lemma all_app_ids_files_sorted (fs : gmap string string) (d : string) :
  merge_sort String.le
    (Path.join d <$> filter (λ i, Is_true (is_record_name i))
                       (listdir_order E (entries fs d)))
  = Path.join d <$> record_files fs d.
Proof.
  assert (∀ l : list string, Forall (λ n, n ∈ entries fs d) l →
            Path.join d <$> l = (String.app (Path.join d "")) <$> l) as Hjoin.
  { intros l Hl. apply Forall_fmap_ext. eapply Forall_impl; [exact Hl|].
    intros n (? & _)%elem_of_entries. simpl. by apply join_entry. }
  apply (StronglySorted_unique String.le).
  - apply StronglySorted_merge_sort; apply _.
  - rewrite Hjoin.
    + eapply StronglySorted_fmap; [|apply Sorted_record_files].
      intros x y Hxy. by apply le_app.
    + apply Forall_forall. by intros n [? _]%elem_of_record_files.
  - rewrite merge_sort_Permutation. unfold record_files.
    by rewrite merge_sort_Permutation, (listdir_order_perm E HE).
Qed.

(** Line 92. *)
Lemma elem_of_record_names (fs : gmap string string) (d k : string) :
  k ∈ record_names_of (listdir_order E (entries fs d)) ↔
  ∃ n, n ∈ entries fs d ∧ is_record_name n = true
       ∧ k = Py.drop_last (String.length ".txt") n.
Proof.
  unfold record_names_of. rewrite elem_of_list_to_set, list_elem_of_fmap.
  split.
  - intros (n & -> & [Hrec Hn]%list_elem_of_filter). exists n.
    rewrite (listdir_order_perm E HE) in Hn. by apply Is_true_true in Hrec.
  - intros (n & Hn & Hrec & ->). exists n. split; [done|].
    apply list_elem_of_filter. rewrite (listdir_order_perm E HE).
    by apply Is_true_true in Hrec.
Qed.

End Listing.

(** ** The merge *)

Section Merge.
Context (E : Env).

Lemma merge_written_ext (fs1 fs2 : gmap string string) (out : string)
    (file_paths : list string) :
  Forall (λ p, fs1 !! p = fs2 !! p) file_paths →
  merge_written E fs1 out file_paths = merge_written E fs2 out file_paths.
Proof.
  induction 1 as [|p l Hp Hl IH]; simpl; [done|]. by rewrite Hp, IH.
Qed.




Lemma merge_loop_run (out old : string) (file_paths : list string) (w : World) :
  files w !! out = Some old →
  Forall (λ p, p ≠ out) file_paths →
  ∃ tr,
    for_each file_paths (λ file_path,
      data ← read E file_path; write E out data) w
    = ((merge_written E (files w) out file_paths).2,
       mkWorld (<[out := old +:+ (merge_written E (files w) out file_paths).1]> (files w))
               (dirs w) (trace w ++ tr))
    ∧ ∀ p, EvRead p ∈ tr → p ∈ file_paths.
Proof.
  intros Hold Hne. revert w old Hold.
  induction Hne as [|p l Hp Hl IH]; intros w old Hold; simpl.
  - exists []. rewrite app_nil_r, insert_id by done.
    rewrite (right_id_L [] (++)). split; [by destruct w|].
    by intros ? ?%elem_of_nil.
  - rewrite !bind_run. unfold read at 1.
    destruct (files w !! p) as [data|] eqn:Hdata; simpl.
    2:{ exists []. rewrite app_nil_r, insert_id by done.
        rewrite (right_id_L [] (++)). split; [by destruct w|].
        by intros ? ?%elem_of_nil. }
    destruct (open_r_ok E p); simpl.
    2:{ exists []. rewrite app_nil_r, insert_id by done.
        rewrite (right_id_L [] (++)). split; [by destruct w|].
        by intros ? ?%elem_of_nil. }
    rewrite (write_run E out data old) by done. simpl.
    destruct (write_cut E out data) as [n|]; simpl.
    + eexists [EvRead p; _]. rewrite <-(assoc_L (++)). split; [done|].
      intros q [[= ->]|Hq]%elem_of_cons; [left|].
      by apply list_elem_of_singleton in Hq.
    + edestruct (IH (mkWorld (<[out:=old +:+ data]> (files w)) (dirs w)
                   ((trace w ++ [EvRead p]) ++ [EvWrite out data]))
                   (old +:+ data)) as (tr & -> & Htr);
        [simpl; by rewrite lookup_insert_eq|].
      simpl.
      rewrite (merge_written_ext (<[out:=old +:+ data]> (files w)) (files w)).
      2:{ eapply Forall_impl; [exact Hl|]. intros q Hq. simpl.
          by rewrite lookup_insert_ne. }
      destruct (merge_written E (files w) out l) as [d res]; simpl.
      exists (EvRead p :: EvWrite out data :: tr).
      rewrite insert_insert_eq, <-!(assoc_L (++)), app_assoc. split; [done|].
      intros q [[= ->]|[?|Hq]%elem_of_cons]%elem_of_cons; [left|done|right].
      by apply Htr.
Qed.

End Merge.

Section MergeRun.
Context (E : Env) (HE : EnvOk E).

Lemma record_paths_present (fs : gmap string string) (dir p : string) :
  p ∈ Path.join dir <$> record_files fs dir → is_Some (fs !! p).
Proof.
  intros (n & -> & Hn)%list_elem_of_fmap.
  apply elem_of_record_files in Hn as [Hn _].
  by apply elem_of_entries in Hn as (_ & _ & ?).
Qed.


Lemma concat_all_app_ids_run (dir out : string) (w : World) :
  dir ∈ dirs w → files w !! out = None → open_w_ok E out = true →
  let file_paths := Path.join dir <$> record_files (files w) dir in
  ∃ tr,
    concat_all_app_ids E dir out w =
      ((merge_written E (files w) out file_paths).2,
       mkWorld (<[out := (merge_written E (files w) out file_paths).1]> (files w))
               (dirs w) (trace w ++ tr))
    ∧ ∀ p, EvRead p ∈ tr → p ∈ file_paths.
Proof.
  intros Hdir Hout Hopen file_paths. unfold concat_all_app_ids.
  rewrite bind_run. unfold os_listdir.
  rewrite bool_decide_eq_true_2 by done.
  rewrite (all_app_ids_files_sorted E HE). fold file_paths.
  rewrite bind_run. unfold open_w. rewrite Hopen.
  assert (Forall (λ p, p ≠ out) file_paths) as Hne.
  { apply Forall_forall. intros p [data Hp]%record_paths_present ->.
    simpl in Hp. congruence. }
  cbn [files dirs trace].
  edestruct (merge_loop_run E out "" file_paths
              (mkWorld (<[out:=""]> (files w)) (dirs w)
                       ((trace w ++ [EvListdir dir]) ++ [EvOpenW out])))
    as (tr & -> & Htr); [simpl; by rewrite lookup_insert_eq|done|].
  simpl.
  rewrite (merge_written_ext E (<[out:=""]> (files w)) (files w)).
  2:{ eapply Forall_impl; [exact Hne|]. intros q Hq. simpl.
      by rewrite lookup_insert_ne. }
  exists (EvListdir dir :: EvOpenW out :: tr).
  rewrite insert_insert_eq, <-!(assoc_L (++)). split; [done|].
  intros q [[=]|[[=]|Hq]%elem_of_cons]%elem_of_cons. by apply Htr.
Qed.

Lemma concat_all_app_ids_no_dir (dir out : string) (w : World) :
  dir ∉ dirs w →
  concat_all_app_ids E dir out w = (Raise FileNotFoundError, w).
Proof.
  intros Hdir. unfold concat_all_app_ids. rewrite bind_run.
  unfold os_listdir. by rewrite bool_decide_eq_false_2.
Qed.

Lemma concat_all_app_ids_no_open (dir out : string) (w : World) :
  dir ∈ dirs w → open_w_ok E out = false →
  concat_all_app_ids E dir out w =
    (Raise OSError, mkWorld (files w) (dirs w) (trace w ++ [EvListdir dir])).
Proof.
  intros Hdir Hopen. unfold concat_all_app_ids. rewrite bind_run.
  unfold os_listdir. rewrite bool_decide_eq_true_2 by done.
  rewrite bind_run. unfold open_w. by rewrite Hopen.
Qed.


End MergeRun.



(** C8. When the output path is there already, the combine stage returns
    at once: it lists, reads and writes nothing, and the state, the output
    file included, is what it was. *)
Theorem combining_skips_existing_output (E : Env) (dir out data : string)
    (w : World) :
  files w !! out = Some data →
  combining E dir out w = (Ok (), w).
Proof.
  intros Hout. unfold combining. rewrite bind_run. unfold os_path_isfile.
  by rewrite bool_decide_eq_true_2 by eauto.
Qed.

(** ** The record check *)

Section Resume.
Context (E : Env) (HE : EnvOk E).

Lemma check_records_run (urls : gset string) (dir : string) (w : World) :
  dir ∈ dirs w →
  check_records E urls dir w =
    (without_records E
       (record_names_of (listdir_order E (entries (files w) dir)))
       (elements urls),
     mkWorld (files w) (dirs w)
             (trace w ++ [EvPrint "Checking records"; EvListdir dir])).
Proof.
  intros Hdir. unfold check_records. rewrite bind_run. unfold os_path_isdir.
  rewrite bool_decide_eq_true_2 by done.
  rewrite bind_run. unfold print at 1, emit at 1.
  rewrite bind_run. unfold os_listdir. cbn [files dirs trace].
  rewrite bool_decide_eq_true_2 by done. unfold lift.
  by rewrite <-(assoc_L (++)).
Qed.

Lemma without_records_Ok (R : gset string) (l pending : list string) :
  without_records E R l = Ok pending →
  Forall (λ u, ∃ name, get_url_file_name E u = Ok name) l
  ∧ ∀ u, u ∈ pending ↔
         u ∈ l ∧ ∃ name, get_url_file_name E u = Ok name ∧ name ∉ R.
Proof.
  revert pending. induction l as [|i l IH]; intros pending; simpl.
  - intros [= <-]. split; [constructor|].
    intros u. split; [by intros ?%elem_of_nil | by intros [?%elem_of_nil _]].
  - destruct (get_url_file_name E i) as [name|] eqn:Hi; simpl; [|done].
    destruct (without_records E R l) as [kept|]; simpl; [|done].
    destruct (IH kept eq_refl) as [Hall Hkept].
    unfold mret, result_ret. intros [= <-]. split; [constructor; eauto|].
    intros u. case_bool_decide as HR.
    + rewrite Hkept, elem_of_cons. split.
      * intros [Hu Hname]. auto.
      * intros [[-> | Hu] (name' & Hname' & Hnot)]; [|eauto].
        congruence.
    + rewrite !elem_of_cons, Hkept. split.
      * intros [-> | [Hu Hname]]; eauto.
      * intros [[-> | Hu] Hname]; auto.
Qed.

Lemma without_records_nil (R : gset string) (l : list string) :
  Forall (λ u, ∃ name, get_url_file_name E u = Ok name ∧ name ∈ R) l →
  without_records E R l = Ok [].
Proof.
  induction 1 as [|i l (name & Hname & HR) Hl IH]; simpl; [done|].
  rewrite Hname, IH. simpl. by rewrite bool_decide_eq_true_2.
Qed.

(** The record of a key is a record file when the key is not empty and
    does not start with a dot. *)
Lemma record_of_key (name : string) :
  name ≠ "" → Py.startswith name "." = false →
  is_record_name (name +:+ ".txt") = true.
Proof.
  intros Hne Hdot. unfold is_record_name.
  rewrite (proj2 (endswith_spec _ _)) by eauto.
  destruct name as [|a name]; [done|]. simpl in *.
  destruct (Ascii.eqb "." a); [|done].
  by rewrite (proj2 (startswith_spec _ "")) in Hdot by eauto.
Qed.

Lemma record_name_of_key (fs : gmap string string) (dir name : string) :
  Py.contains Path.sep name = false →
  name ≠ "" → Py.startswith name "." = false →
  is_Some (fs !! Path.join dir (name +:+ ".txt")) →
  name ∈ record_names_of (listdir_order E (entries fs dir)).
Proof.
  intros Hsep Hne Hdot Hfile. apply (elem_of_record_names E HE).
  exists (name +:+ ".txt"). split; [|split].
  - apply elem_of_entries. split; [|split; [|done]].
    + by rewrite contains_app, Hsep.
    + by destruct name.
  - by apply record_of_key.
  - by rewrite drop_last_app.
Qed.

Lemma get_url_file_name_no_sep (url name : string) :
  get_url_file_name E url = Ok name → Py.contains Path.sep name = false.
Proof.
  unfold get_url_file_name. destruct (urlparse E url); simpl; [|done].
  intros [= <-]. apply basename_no_sep.
Qed.

End Resume.

Section Rerun.
Context (E : Env) (HE : EnvOk E) (dir : string).

Lemma task_results_Ok (urls : list string) :
  Forall (has_key E) urls → ∃ bs, task_result E dir <$> urls = Ok <$> bs.
Proof.
  induction 1 as [|url urls [name Hname] _ [bs IH]]; [by exists []|].
  eexists (_ :: bs). rewrite !fmap_cons, IH. f_equal.
  unfold task_result. by rewrite Hname.
Qed.

Lemma run_fetch_app_ids_tasks_run (urls : list string) (w : World) :
  Forall (has_key E) urls →
  ∃ tr,
    run_fetch_app_ids_tasks E urls dir w =
      (Ok (), mkWorld (foldl (after_task E dir) (files w) urls) (dirs w)
                      (trace w ++ tr)).
Proof.
  intros [bs Hbs]%task_results_Ok.
  destruct (run_in_executor_run E dir urls w) as (tr & Hpool & _).
  rewrite Hbs in Hpool.
  unfold run_fetch_app_ids_tasks. rewrite bind_run.
  unfold gather. rewrite Hpool, comprehension_id_Ok.
  rewrite bind_run. unfold print at 1, emit at 1. cbn [files dirs trace].
  destruct (bool_decide _); unfold print, emit; cbn [files dirs trace];
    rewrite <-!(assoc_L (++)); by eexists.
Qed.

Lemma fetching_run (pending : list string) (w : World) :
  Forall (has_key E) pending →
  ∃ tr,
    fetching E pending dir w =
      (Ok (), mkWorld (foldl (after_task E dir) (files w)
                             (merge_sort String.le pending))
                      (dirs w) (trace w ++ tr)).
Proof.
  intros Hkeys. unfold fetching. rewrite bind_run.
  unfold print at 1, emit at 1.
  destruct pending as [|url pending].
  - rewrite bool_decide_eq_false_2 by (simpl; lia). by eexists.
  - rewrite bool_decide_eq_true_2 by (simpl; lia). rewrite bind_run.
    edestruct (run_fetch_app_ids_tasks_run (merge_sort String.le (url :: pending)))
      as [tr ->]; [by rewrite merge_sort_Permutation|].
    unfold print, emit. cbn [files dirs trace].
    rewrite <-!(assoc_L (++)). by eexists.
Qed.

Lemma fetching_nothing (w : World) :
  fetching E [] dir w =
    (Ok (), mkWorld (files w) (dirs w) (trace w ++ [EvPrint "Fetching app ids"])).
Proof. done. Qed.

Lemma after_task_insert (fs : gmap string string) (url name : string) :
  task_result E dir url = Ok true →
  get_url_file_name E url = Ok name →
  ∃ data, after_task E dir fs url = <[Path.join dir (name +:+ ".txt") := data]> fs.
Proof.
  unfold task_result, after_task. intros Hres Hname.
  rewrite Hname in Hres |- *. simpl in Hres. injection Hres as Hok.
  unfold task_files. rewrite Hok. unfold task_ok in Hok.
  destruct (shard_app_ids E url); [by eexists | done].
Qed.

Lemma task_result_key (url : string) (b : bool) :
  task_result E dir url = Ok b → has_key E url.
Proof.
  unfold task_result, has_key.
  destruct (get_url_file_name E url); [by eexists | done].
Qed.

Lemma after_pool_keeps (urls : list string) (fs : gmap string string) (p : string) :
  Forall (λ url, task_result E dir url = Ok true) urls →
  is_Some (fs !! p) →
  is_Some (foldl (after_task E dir) fs urls !! p).
Proof.
  intros Hall. revert fs.
  induction Hall as [|url urls Hurl _ IH]; intros fs Hp; simpl; [done|].
  apply IH. destruct (task_result_key url true Hurl) as [name Hname].
  destruct (after_task_insert fs url name Hurl Hname) as [data ->].
  rewrite lookup_insert. by case_decide.
Qed.

Lemma after_pool_own (urls : list string) (fs : gmap string string)
    (url name : string) :
  Forall (λ url, task_result E dir url = Ok true) urls →
  url ∈ urls →
  get_url_file_name E url = Ok name →
  is_Some (foldl (after_task E dir) fs urls !! Path.join dir (name +:+ ".txt")).
Proof.
  intros Hall. revert fs.
  induction Hall as [|u urls Hu Hall IH]; intros fs Hin Hname; simpl.
  - by apply elem_of_nil in Hin.
  - apply elem_of_cons in Hin as [<- | Hin]; [|by apply IH].
    apply after_pool_keeps; [done|].
    destruct (after_task_insert fs url name Hu Hname) as [data ->].
    by rewrite lookup_insert_eq.
Qed.

End Rerun.

(** C2, as the code has it. With the cache directory in place, a URL
    whose key is not empty and does not start with a dot, and whose record
    is in the cache directory, is not among the URLs handed to the
    scheduler. Hence, when all keys are of that kind and every fetch of a
    run succeeded, the next run over the same URLs and the files the first
    one left finds nothing pending and starts no fetch. *)
Theorem completed_shards_are_skipped (E : Env) (urls : gset string)
    (dir : string) (w : World) :
  EnvOk E →
  dir ∈ dirs w →
  (∀ pending w1 url name,
      check_records E urls dir w = (Ok pending, w1) →
      get_url_file_name E url = Ok name →
      name ≠ "" → Py.startswith name "." = false →
      is_Some (files w !! Path.join dir (name +:+ ".txt")) →
      url ∉ pending)
  ∧ (∀ pending w1 w2 w3,
      check_records E urls dir w = (Ok pending, w1) →
      fetching E pending dir w1 = (Ok (), w2) →
      Forall (λ url, ∀ w0, ∃ w0',
                fetch_app_ids_task E url dir w0 = (Ok true, w0')) pending →
      (∀ url name, url ∈ urls → get_url_file_name E url = Ok name →
                   name ≠ "" ∧ Py.startswith name "." = false) →
      files w3 = files w2 → dirs w3 = dirs w2 →
      ∃ w4,
        check_records E urls dir w3 = (Ok [], w4)
        ∧ fetching E [] dir w4 =
            (Ok (), mkWorld (files w4) (dirs w4)
                            (trace w4 ++ [EvPrint "Fetching app ids"]))).
Proof.
  intros HE Hdir. split.
  - intros pending w1 url name Hcheck Hname Hne Hdot Hfile Hin.
    rewrite check_records_run in Hcheck by done. injection Hcheck as Hcheck _.
    apply without_records_Ok in Hcheck as [_ Hpending].
    apply Hpending in Hin as (_ & name' & Hname' & Hnot).
    apply Hnot. assert (name' = name) as -> by congruence.
    apply (record_name_of_key E HE); [|done..].
    by eapply get_url_file_name_no_sep.
  - intros pending w1 w2 w3 Hcheck Hfetch Hok Hkeys Hfiles Hdirs.
    rewrite check_records_run in Hcheck by done.
    injection Hcheck as Hcheck <-.
    apply without_records_Ok in Hcheck as [Hall Hpending].
    assert (Forall (λ url, task_result E dir url = Ok true) pending) as Hres.
    { eapply Forall_impl; [exact Hok|]. intros url Hurl. simpl in Hurl.
      destruct (Hurl w) as [w0' Hrun].
      destruct (task_run E dir url w) as (tr & Htr & _). congruence. }
    assert (Forall (has_key E) pending) as Hpkeys.
    { eapply Forall_impl; [exact Hres|]. intros url. apply task_result_key. }
    destruct (fetching_run E dir pending
                (mkWorld (files w) (dirs w)
                   (trace w ++ [EvPrint "Checking records"; EvListdir dir]))
                Hpkeys) as [tr Htr].
    rewrite Htr in Hfetch. injection Hfetch as <-. simpl in Hfiles, Hdirs.
    eexists. split; [|apply fetching_nothing].
    rewrite check_records_run by (by rewrite Hdirs). f_equal.
    apply without_records_nil. apply Forall_forall. intros url Hurl.
    destruct (proj1 (Forall_forall _ _) Hall url Hurl) as [name Hname].
    exists name. split; [done|].
    apply elem_of_elements in Hurl.
    destruct (Hkeys url name Hurl Hname) as [Hne Hdot].
    apply (record_name_of_key E HE);
      [by eapply get_url_file_name_no_sep|done..|].
    rewrite Hfiles.
    assert (Forall (λ url, task_result E dir url = Ok true)
              (merge_sort String.le pending)) as Hres'
      by (by rewrite merge_sort_Permutation).
    destruct (decide (url ∈ pending)) as [Hin|Hin].
    + apply (after_pool_own E dir _ _ url); [done| |done].
      by rewrite merge_sort_Permutation.
    + apply after_pool_keeps; [done|].
      destruct (decide (name ∈ record_names_of
                  (listdir_order E (entries (files w) dir)))) as [HR|HR].
      * apply (elem_of_record_names E HE) in HR as (n & Hn & Hrec & ->).
        unfold is_record_name in Hrec.
        apply andb_true_iff in Hrec as [_ [k ->]%endswith_spec].
        rewrite drop_last_app.
        by apply elem_of_entries in Hn as (_ & _ & ?).
      * exfalso. apply Hin, Hpending. split; [by apply elem_of_elements|].
        eauto.
Qed.

(** ** Files that are not records *)

Section Ignored.
Context (E : Env) (HE : EnvOk E) (dir n data : string).
Context (Hsep : Py.contains Path.sep n = false).
Context (Hrec : is_record_name n = false).

Lemma record_entries_put (fs : gmap string string) (i : string) :
  is_record_name i = true →
  i ∈ entries (<[Path.join dir n := data]> fs) dir ↔ i ∈ entries fs dir.
Proof.
  intros Hi. rewrite !elem_of_entries.
  destruct (decide (Path.join dir n = Path.join dir i)) as [Heq|Hne].
  - split; intros (Hs & _); exfalso;
      assert (n = i) as Hni by (by apply (join_entry_inj dir));
      congruence.
  - by rewrite lookup_insert_ne.
Qed.

Lemma record_files_put (fs : gmap string string) :
  record_files (<[Path.join dir n := data]> fs) dir = record_files fs dir.
Proof.
  apply (StronglySorted_unique String.le); [apply Sorted_record_files..|].
  apply NoDup_Permutation; [apply NoDup_record_files..|].
  intros i. rewrite !elem_of_record_files. split.
  - intros [Hi Hr]. split; [|done]. by apply (record_entries_put fs i Hr).
  - intros [Hi Hr]. split; [|done]. by apply (record_entries_put fs i Hr).
Qed.

Lemma record_names_put (fs : gmap string string) :
  record_names_of (listdir_order E (entries (<[Path.join dir n := data]> fs) dir))
  = record_names_of (listdir_order E (entries fs dir)).
Proof.
  apply set_eq. intros k. rewrite !(elem_of_record_names E HE). split.
  - intros (i & Hi & Hr & ->). exists i.
    split; [|done]. by apply (record_entries_put fs i Hr).
  - intros (i & Hi & Hr & ->). exists i.
    split; [|done]. by apply (record_entries_put fs i Hr).
Qed.

Lemma extra_not_record_path (fs : gmap string string) :
  Path.join dir n ∉ Path.join dir <$> record_files fs dir.
Proof.
  intros (i & Hi & [Hin Hr]%elem_of_record_files)%list_elem_of_fmap.
  apply elem_of_entries in Hin as (? & _).
  assert (n = i) as Hni by (by apply (join_entry_inj dir)). congruence.
Qed.

Lemma merge_written_put (fs : gmap string string) (out : string) :
  merge_written E (<[Path.join dir n := data]> fs) out
    (Path.join dir <$> record_files fs dir)
  = merge_written E fs out (Path.join dir <$> record_files fs dir).
Proof.
  apply merge_written_ext, Forall_forall. intros p Hp.
  apply lookup_insert_ne. intros <-. by apply extra_not_record_path in Hp.
Qed.

End Ignored.

Lemma check_records_no_dir (E : Env) (urls : gset string) (dir : string) (w : World) :
  dir ∉ dirs w → check_records E urls dir w = (Ok (elements urls), w).
Proof.
  intros Hdir. unfold check_records. rewrite bind_run. unfold os_path_isdir.
  by rewrite bool_decide_eq_false_2.
Qed.

(** C10. A file of the cache directory whose name starts with a dot or
    does not end in [.txt] counts for nothing: with it put there, or its
    contents changed, the record check keeps the same URLs pending, and the
    merge returns the same, leaves the same output and never reads it. *)
Theorem only_record_files_count (E : Env) (urls : gset string)
    (dir out n data : string) (w : World) :
  EnvOk E →
  Py.contains Path.sep n = false →
  is_record_name n = false →
  files w !! out = None →
  Path.join dir n ≠ out →
  let w_extra := put_file (Path.join dir n) data w in
  (check_records E urls dir w_extra).1 = (check_records E urls dir w).1
  ∧ (concat_all_app_ids E dir out w_extra).1 = (concat_all_app_ids E dir out w).1
  ∧ files (concat_all_app_ids E dir out w_extra).2 !! out
    = files (concat_all_app_ids E dir out w).2 !! out
  ∧ ∃ tr, trace (concat_all_app_ids E dir out w_extra).2 = trace w ++ tr
          ∧ EvRead (Path.join dir n) ∉ tr.
Proof.
  intros HE Hsep Hrec Hout Hne w_extra.
  assert (files w_extra !! out = None) as Hout'.
  { unfold w_extra. simpl. by rewrite lookup_insert_ne. }
  destruct (decide (dir ∈ dirs w)) as [Hdir|Hdir].
  2:{ rewrite !check_records_no_dir, !(concat_all_app_ids_no_dir E) by done.
      simpl. rewrite lookup_insert_ne by done. repeat split; try done.
      exists []. split; [by rewrite (right_id_L [] (++))|]. apply not_elem_of_nil. }
  split.
  { rewrite !check_records_run by done. simpl.
    by rewrite (record_names_put E HE). }
  destruct (open_w_ok E out) eqn:Hopen.
  2:{ rewrite !(concat_all_app_ids_no_open E) by done. simpl.
      rewrite lookup_insert_ne by done. repeat split; try done.
      eexists. split; [done|].
      by intros [[=]|?%elem_of_nil]%elem_of_cons. }
  destruct (concat_all_app_ids_run E HE dir out w Hdir Hout Hopen)
    as (tr & -> & _).
  destruct (concat_all_app_ids_run E HE dir out w_extra Hdir Hout' Hopen)
    as (tr' & -> & Hreads).
  simpl. rewrite !(record_files_put dir n data Hsep Hrec).
  rewrite (merge_written_put E dir n data Hsep Hrec), !lookup_insert_eq.
  repeat split; try done.
  exists tr'. split; [done|]. intros Hread%Hreads.
  simpl in Hread. rewrite (record_files_put dir n data Hsep Hrec) in Hread.
  by apply (extra_not_record_path dir n Hsep Hrec) in Hread.
Qed.

(** C7, as the code has it. [get_url_file_name] touches neither network
    nor disk; it hands back what follows the last separator of the URL's
    path, which is the empty string when the path is empty or ends in a
    separator, and it raises only when [urlparse] rejects the URL. *)
Theorem get_url_file_name_is_basename (E : Env) (url : string) :
  match urlparse E url with
  | Some r =>
      get_url_file_name E url = Ok (Path.basename (path r))
      ∧ ∃ pre,
          path r = pre +:+ Path.basename (path r)
          ∧ Py.contains Path.sep (Path.basename (path r)) = false
          ∧ (pre = "" ∨ Py.endswith pre "/" = true)
  | None => get_url_file_name E url = Raise ValueError
  end.
Proof.
  unfold get_url_file_name. destruct (urlparse E url) as [r|]; simpl; [|done].
  split; [done|]. apply basename_spec.
Qed.

(** ** The reference environment *)

Section RefFacts.

Lemma env_ok : EnvOk Ref.env.
Proof.
  split; simpl.
  - apply NoDup_remove_dups.
  - intros l x. apply elem_of_remove_dups.
  - apply reverse_Permutation.
Qed.

Lemma disk_full_ok : EnvOk Ref.disk_full.
Proof.
  split; simpl.
  - apply NoDup_remove_dups.
  - intros l x. apply elem_of_remove_dups.
  - apply reverse_Permutation.
Qed.



End RefFacts.

(** ** The scenarios of the specification *)

(** Shards A (ids 100, 200) and B (id 300): after the fetch and the merge
    the output holds the three ids, those of A first. *)
Example scenario_two_shards :
  let w := (fetch_app_ids Ref.env {[Ref.shard_A; Ref.shard_B]}
              Ref.cache Ref.output Ref.fresh).2 in
  files w !! Ref.output
  = Some ("100" +:+ nl +:+ "200" +:+ nl +:+ "300" +:+ nl).
Proof. vm_compute. reflexivity. Qed.

(** Shard C does not decompress: one task is reported failed, no record of
    C exists, and C is pending again on the next run. *)
Example scenario_failed_shard :
  let run := fetch_app_ids Ref.env {[Ref.shard_C]} Ref.cache Ref.output Ref.fresh in
  EvPrint "1 failed tasks" ∈ trace run.2
  ∧ files run.2 !! "GPAppId/app_ids_main/C.xml.gz.txt" = None
  ∧ (check_records Ref.env {[Ref.shard_C]} Ref.cache run.2).1 = Ok [Ref.shard_C].
Proof.
  split; [|split]; [|vm_compute; reflexivity..].
  apply (bool_decide_unpack _). vm_compute. exact I.
Qed.

(** The record of A is in the cache: A is not dispatched. *)
Example scenario_resume :
  (check_records Ref.env {[Ref.shard_A; Ref.shard_C]} Ref.cache Ref.two_records).1
  = Ok [Ref.shard_C].
Proof. vm_compute. reflexivity. Qed.

(** The disk fills up during the second line: the partial record, and the
    record an earlier run had left, are gone when the task returns. *)
Example scenario_disk_full :
  let run := fetch_app_ids_task Ref.disk_full Ref.shard_A Ref.cache Ref.stale in
  run.1 = Ok false
  ∧ files run.2 = ∅
  ∧ trace run.2 =
      [EvUrlopen Ref.shard_A;
       EvOpenW "GPAppId/app_ids_main/A.xml.gz.txt";
       EvWrite "GPAppId/app_ids_main/A.xml.gz.txt" ("100" +:+ nl);
       EvWrite "GPAppId/app_ids_main/A.xml.gz.txt" "20";
       EvRemove "GPAppId/app_ids_main/A.xml.gz.txt"].
Proof. vm_compute. auto. Qed.

(** A record follows the order in which the set of links is iterated, not
    the order of the document, and a link that occurs twice yields one
    line. *)
Example record_order_is_set_order :
  let tree := Ref.urlset [Ref.details "100"; Ref.details "200"; Ref.details "100"] in
  hrefs tree = [Ref.details "100"; Ref.details "200"; Ref.details "100"]
  ∧ app_ids_of Ref.backwards (set_iter Ref.backwards (hrefs tree))
    = Ok ["100"; "200"]
  ∧ app_ids_of Ref.env (set_iter Ref.env (hrefs tree)) = Ok ["200"; "100"].
Proof. vm_compute. auto. Qed.

(** ** The theorems at concrete inputs *)

(** C1 where the disk fills up: the task returns [False] and the target
    path is gone. *)
Lemma fetch_task_all_or_nothing_witness :
  Ref.task_disk_full = (Ok false, Ref.task_disk_full.2)
  ∧ ∃ name,
      get_url_file_name Ref.disk_full Ref.shard_A = Ok name
      ∧ dirs Ref.task_disk_full.2 = dirs Ref.stale
      ∧ files Ref.task_disk_full.2 !! Path.join Ref.cache (name +:+ ".txt") = None
      ∧ files Ref.task_disk_full.2
        = delete (Path.join Ref.cache (name +:+ ".txt")) (files Ref.stale).
Proof.
  assert (Ref.task_disk_full = (Ok false, Ref.task_disk_full.2)) as Hrun
    by (vm_compute; reflexivity).
  split; [exact Hrun|].
  destruct (fetch_task_all_or_nothing Ref.disk_full Ref.shard_A Ref.cache
              Ref.stale Ref.task_disk_full.2 false Hrun)
    as (name & Hname & Hdirs & Hnone & Hfiles).
  exists name. auto.
Defined.


(** C6 on shard D, whose second product link has no [id]. *)
Lemma malformed_entry_fails_shard_witness :
  ∃ w',
    fetch_app_ids_task Ref.env Ref.shard_D Ref.cache Ref.fresh = (Ok false, w')
    ∧ files w' !! Path.join Ref.cache ("D.xml.gz" +:+ ".txt") = None
    ∧ files w' = delete (Path.join Ref.cache ("D.xml.gz" +:+ ".txt")) (files Ref.fresh).
Proof.
  apply (malformed_entry_fails_shard Ref.env Ref.shard_D Ref.cache "D.xml.gz"
           "gzip:D" "D" "https://play.google.com/store/apps/top"
           (Ref.urlset [Ref.details "400"; "https://play.google.com/store/apps/top"])
           Ref.fresh env_ok).
  - reflexivity.
  - reflexivity.
  - reflexivity.
  - reflexivity.
  - apply (bool_decide_unpack _). vm_compute. exact I.
  - reflexivity.
  - intros r [= <-]. reflexivity.
Defined.


(** C8 with an output that is there. *)
Lemma combining_skips_existing_output_witness :
  files Ref.have_output !! Ref.output = Some "100"
  ∧ combining Ref.env Ref.cache Ref.output Ref.have_output
    = (Ok (), Ref.have_output).
Proof.
  assert (files Ref.have_output !! Ref.output = Some "100") as Hout
    by (vm_compute; reflexivity).
  split; [exact Hout|].
  exact (combining_skips_existing_output Ref.env Ref.cache Ref.output "100"
           Ref.have_output Hout).
Defined.



(** C10 with a [.DS_Store] put into the cache directory. *)
Lemma only_record_files_count_witness :
  (check_records Ref.env Ref.shards_A_C Ref.cache Ref.with_extra).1
  = (check_records Ref.env Ref.shards_A_C Ref.cache Ref.two_records).1
  ∧ (concat_all_app_ids Ref.env Ref.cache Ref.output Ref.with_extra).1
    = (concat_all_app_ids Ref.env Ref.cache Ref.output Ref.two_records).1
  ∧ files (concat_all_app_ids Ref.env Ref.cache Ref.output Ref.with_extra).2
      !! Ref.output
    = files (concat_all_app_ids Ref.env Ref.cache Ref.output Ref.two_records).2
      !! Ref.output
  ∧ ∃ tr, trace (concat_all_app_ids Ref.env Ref.cache Ref.output Ref.with_extra).2
          = trace Ref.two_records ++ tr
          ∧ EvRead (Path.join Ref.cache ".DS_Store") ∉ tr.
Proof.
  apply (only_record_files_count Ref.env Ref.shards_A_C Ref.cache Ref.output
           ".DS_Store" "z" Ref.two_records env_ok).
  - reflexivity.
  - reflexivity.
  - vm_compute. reflexivity.
  - vm_compute. discriminate.
Defined.

(** C2, as the code has it: the record of A is there, B is fetched, and
    the next run finds nothing pending. *)
Lemma completed_shards_are_skipped_witness :
  Ref.check_stale = (Ok [Ref.shard_B], Ref.check_stale.2)
  ∧ (Ref.shard_A ∉ [Ref.shard_B])
  ∧ Ref.fetch_stale = (Ok (), Ref.fetch_stale.2)
  ∧ ∃ w4,
      check_records Ref.env Ref.shards_A_B Ref.cache Ref.fetch_stale.2 = (Ok [], w4)
      ∧ fetching Ref.env [] Ref.cache w4 =
          (Ok (), mkWorld (files w4) (dirs w4)
                          (trace w4 ++ [EvPrint "Fetching app ids"])).
Proof.
  assert (Ref.cache ∈ dirs Ref.stale) as Hdir
    by (apply (bool_decide_unpack _); vm_compute; exact I).
  assert (Ref.check_stale = (Ok [Ref.shard_B], Ref.check_stale.2)) as Hcheck
    by (vm_compute; reflexivity).
  assert (Ref.fetch_stale = (Ok (), Ref.fetch_stale.2)) as Hrun
    by (vm_compute; reflexivity).
  destruct (completed_shards_are_skipped Ref.env Ref.shards_A_B Ref.cache
              Ref.stale env_ok Hdir) as [Hskip Hrerun].
  split; [exact Hcheck|]. split; [|split; [exact Hrun|]].
  - apply (Hskip [Ref.shard_B] Ref.check_stale.2 Ref.shard_A "A.xml.gz" Hcheck).
    + reflexivity.
    + discriminate.
    + reflexivity.
    + vm_compute. eauto.
  - apply (Hrerun [Ref.shard_B] Ref.check_stale.2 Ref.fetch_stale.2
             Ref.fetch_stale.2 Hcheck Hrun); [| |reflexivity..].
    + constructor; [|constructor]. intros w0.
      destruct (task_run Ref.env Ref.cache Ref.shard_B w0) as (tr & -> & _).
      by eexists.
    + intros url name Hurl Hname.
      assert (url = Ref.shard_A ∨ url = Ref.shard_B) as [-> | ->]
        by (apply elem_of_union in Hurl as [Hurl|Hurl];
            apply elem_of_singleton in Hurl; auto);
        vm_compute in Hname; injection Hname as <-;
        (split; [discriminate | reflexivity]).
Defined.

(** ** Where the specification and the code part *)

(** C2 as stated fails: the shard whose URL ends in a separator has the
    empty key; its fetch succeeds and leaves the record [.txt], which the
    record check skips as a hidden file, so the next run over the same URLs
    and files finds the shard pending and fetches it again. *)
Lemma dot_key_record_is_dispatched_again :
  get_url_file_name Ref.env Ref.shard_slash = Ok ""
  ∧ Ref.first_run.1 = Ok ()
  ∧ count_occ Event_eq_dec (trace Ref.first_run.2) (EvPrint "All 1 tasks done") = 1
  ∧ files Ref.first_run.2 !! Path.join Ref.cache ("" +:+ ".txt")
    = Some ("300" +:+ nl)
  ∧ (check_records Ref.env Ref.shards_slash Ref.cache Ref.first_run.2).1
    = Ok [Ref.shard_slash]
  ∧ count_occ Event_eq_dec (trace Ref.first_run.2) (EvUrlopen Ref.shard_slash) = 1
  ∧ count_occ Event_eq_dec (trace Ref.second_run.2) (EvUrlopen Ref.shard_slash) = 2.
Proof. vm_compute. repeat split; reflexivity. Qed.


(** C7 as stated fails: for a URL without a path, and for one whose path
    ends in a separator, [get_url_file_name] returns the empty string; it
    does not fail. *)
Lemma resolve_without_segment_returns_empty :
  path <$> urlparse Ref.env "https://play.google.com" = Some ""
  ∧ get_url_file_name Ref.env "https://play.google.com" = Ok ""
  ∧ path <$> urlparse Ref.env Ref.shard_slash = Some "/sitemaps/"
  ∧ get_url_file_name Ref.env Ref.shard_slash = Ok "".
Proof. vm_compute. repeat split; reflexivity. Qed.

(** ** Further facts about the task and the pool *)

Section Targets.
Context (E : Env) (dir : string).

(** The path the task on a URL with file name [name] writes to. *)
Lemma target_is_entry (name : string) :
  Py.contains Path.sep name = false →
  entry_name dir (Path.join dir (name +:+ ".txt")) = Some (name +:+ ".txt").
Proof.
  intros Hsep. apply entry_name_spec. split; [done|]. split.
  - by rewrite contains_app, Hsep.
  - by destruct name.
Qed.

Lemma target_inj (k1 k2 : string) :
  Py.contains Path.sep k1 = false → Py.contains Path.sep k2 = false →
  Path.join dir (k1 +:+ ".txt") = Path.join dir (k2 +:+ ".txt") → k1 = k2.
Proof.
  intros H1 H2 Heq. apply join_entry_inj in Heq.
  - by rewrite <-(drop_last_app k1 ".txt"), Heq, drop_last_app.
  - by rewrite contains_app, H1.
  - by rewrite contains_app, H2.
Qed.

Lemma task_files_other (url p q : string) (fs : gmap string string) :
  p ≠ q → task_files E url p fs !! q = fs !! q.
Proof.
  intros Hne. unfold task_files.
  destruct (shard_app_ids E url); [destruct (task_ok E url p)|];
    by rewrite ?lookup_insert_ne, ?lookup_delete_ne.
Qed.

Lemma task_files_comm (u1 u2 p1 p2 : string) (fs : gmap string string) :
  p1 ≠ p2 →
  task_files E u1 p1 (task_files E u2 p2 fs)
  = task_files E u2 p2 (task_files E u1 p1 fs).
Proof.
  intros Hne. unfold task_files.
  destruct (shard_app_ids E u1), (shard_app_ids E u2);
    repeat match goal with |- context [if ?b then _ else _] => destruct b end;
    by rewrite ?(insert_insert_ne _ p1 p2), ?(delete_insert_ne _ p1 p2),
         ?(delete_insert_ne _ p2 p1), ?(delete_delete _ p1 p2).
Qed.

Lemma task_files_same (u1 u2 p : string) (fs : gmap string string) :
  task_files E u2 p (task_files E u1 p fs) = task_files E u2 p fs.
Proof.
  unfold task_files.
  destruct (shard_app_ids E u1), (shard_app_ids E u2);
    repeat match goal with |- context [if ?b then _ else _] => destruct b end;
    by rewrite ?insert_insert_eq, ?delete_insert_eq, ?insert_delete_eq,
         ?delete_delete_eq.
Qed.

Lemma after_task_other (url q : string) (fs : gmap string string) :
  (∀ name, get_url_file_name E url = Ok name →
           Path.join dir (name +:+ ".txt") ≠ q) →
  after_task E dir fs url !! q = fs !! q.
Proof.
  intros Hq. unfold after_task.
  destruct (get_url_file_name E url) as [name|]; [|done].
  apply task_files_other. by apply Hq.
Qed.

Lemma after_pool_other (urls : list string) (q : string) (fs : gmap string string) :
  Forall (λ url, ∀ name, get_url_file_name E url = Ok name →
                         Path.join dir (name +:+ ".txt") ≠ q) urls →
  foldl (after_task E dir) fs urls !! q = fs !! q.
Proof.
  intros Hall. revert fs. induction Hall as [|url urls Hurl _ IH]; intros fs;
    simpl; [done|].
  by rewrite IH, after_task_other.
Qed.

Lemma after_task_outside (url q : string) (fs : gmap string string) :
  entry_name dir q = None → after_task E dir fs url !! q = fs !! q.
Proof.
  intros Hq. apply after_task_other. intros name Hname <-.
  rewrite target_is_entry in Hq; [done|].
  by eapply get_url_file_name_no_sep.
Qed.

Lemma after_pool_outside (urls : list string) (q : string) (fs : gmap string string) :
  entry_name dir q = None →
  foldl (after_task E dir) fs urls !! q = fs !! q.
Proof.
  intros Hq. apply after_pool_other, Forall_forall. intros url _ name Hname <-.
  rewrite target_is_entry in Hq; [done|].
  by eapply get_url_file_name_no_sep.
Qed.

End Targets.

(** X1. Whatever the URL and however the task ends, a task leaves every
    path that is not a direct entry of the cache directory as it was: the
    file name of a URL holds no separator, so the target lies in the cache
    directory itself. *)
Theorem task_stays_in_cache_dir (E : Env) (url dir p : string) (w : World) :
  entry_name dir p = None →
  files (fetch_app_ids_task E url dir w).2 !! p = files w !! p.
Proof.
  intros Hp. destruct (task_run E dir url w) as (tr & -> & _). simpl.
  by apply after_task_outside.
Qed.

Section PoolFiles.
Context (E : Env) (dir : string).

Lemma after_task_same_key (url1 url2 name : string) (fs : gmap string string) :
  get_url_file_name E url1 = Ok name → get_url_file_name E url2 = Ok name →
  after_task E dir (after_task E dir fs url1) url2 = after_task E dir fs url2.
Proof.
  intros H1 H2. unfold after_task. rewrite H1, H2. apply task_files_same.
Qed.

Lemma after_task_comm (url1 url2 : string) (fs : gmap string string) :
  (∀ name, get_url_file_name E url1 = Ok name →
           get_url_file_name E url2 = Ok name → url1 = url2) →
  after_task E dir (after_task E dir fs url1) url2
  = after_task E dir (after_task E dir fs url2) url1.
Proof.
  intros Hinj. unfold after_task.
  destruct (get_url_file_name E url1) as [k1|] eqn:H1; [|done].
  destruct (get_url_file_name E url2) as [k2|] eqn:H2; [|done].
  destruct (decide (k1 = k2)) as [->|Hne].
  - by rewrite (Hinj k2 eq_refl eq_refl).
  - apply task_files_comm. intros Heq. apply Hne. symmetry.
    eapply target_inj; [..|exact Heq]; by eapply get_url_file_name_no_sep.
Qed.

(** A left fold does not depend on the order of a list whose members
    commute. *)
Lemma foldl_comm_perm {A B} (f : B → A → B) (l1 l2 : list A) :
  l1 ≡ₚ l2 →
  (∀ x y b, x ∈ l1 → y ∈ l1 → f (f b x) y = f (f b y) x) →
  ∀ b, foldl f b l1 = foldl f b l2.
Proof.
  induction 1 as [|x l1 l2 Hperm IH|x y l|l1 l2 l3 H12 IH12 H23 IH23];
    intros Hcomm b; simpl.
  - done.
  - apply IH. intros x' y' b' Hx Hy. apply Hcomm; by constructor.
  - f_equal. apply Hcomm; repeat constructor.
  - rewrite IH12 by done. apply IH23. intros x y b' Hx Hy.
    apply Hcomm; by rewrite H12.
Qed.


Lemma run_fetch_app_ids_tasks_files (urls : list string) (w : World) :
  ∃ r tr,
    run_fetch_app_ids_tasks E urls dir w =
      (r, mkWorld (foldl (after_task E dir) (files w) urls) (dirs w)
                  (trace w ++ tr)).
Proof.
  destruct (run_in_executor_run E dir urls w) as (tr & Hpool & _).
  unfold run_fetch_app_ids_tasks. rewrite bind_run.
  unfold gather. rewrite Hpool.
  destruct (comprehension _ _) as [bs|e]; [|by eexists _, _].
  rewrite bind_run. unfold print at 1, emit at 1. cbn [files dirs trace].
  destruct (bool_decide _); unfold print, emit; cbn [files dirs trace];
    rewrite <-!(assoc_L (++)); by eexists _, _.
Qed.

Lemma fetching_files (pending : list string) (w : World) :
  ∃ r tr,
    fetching E pending dir w =
      (r, mkWorld (foldl (after_task E dir) (files w)
                         (merge_sort String.le pending))
                  (dirs w) (trace w ++ tr)).
Proof.
  unfold fetching. rewrite bind_run. unfold print at 1, emit at 1.
  destruct pending as [|url pending].
  - rewrite bool_decide_eq_false_2 by (simpl; lia). by eexists _, _.
  - rewrite bool_decide_eq_true_2 by (simpl; lia). rewrite bind_run.
    edestruct (run_fetch_app_ids_tasks_files
                 (merge_sort String.le (url :: pending))) as (r & tr & ->).
    cbn [files dirs trace]. rewrite <-!(assoc_L (++)).
    destruct r as [[]|e]; [|by eexists _, _].
    unfold print, emit. cbn [files dirs trace].
    rewrite <-!(assoc_L (++)). by eexists _, _.
Qed.

End PoolFiles.

(** X2. Two URLs with the same file name share one record: after the
    tasks on both, the files are those the second task alone leaves. A
    record the first fetched is replaced, or removed when the second
    fails. *)
Theorem same_key_last_task_wins (E : Env) (url1 url2 dir name : string)
    (w : World) :
  get_url_file_name E url1 = Ok name →
  get_url_file_name E url2 = Ok name →
  files (fetch_app_ids_task E url2 dir (fetch_app_ids_task E url1 dir w).2).2
  = files (fetch_app_ids_task E url2 dir w).2.
Proof.
  intros H1 H2. destruct (task_run E dir url1 w) as (tr1 & -> & _). simpl.
  destruct (task_run E dir url2 w) as (tr2 & -> & _).
  destruct (task_run E dir url2
              (mkWorld (after_task E dir (files w) url1) (dirs w) (trace w ++ tr1)))
    as (tr3 & -> & _).
  simpl. by eapply after_task_same_key.
Qed.

(** X3. When no two of the URLs share a file name, the files the pool
    leaves do not depend on the order in which the tasks are dispatched. *)
Theorem pool_order_irrelevant (E : Env) (urls1 urls2 : list string)
    (dir : string) (w : World) :
  urls1 ≡ₚ urls2 →
  (∀ url1 url2 name, url1 ∈ urls1 → url2 ∈ urls1 →
     get_url_file_name E url1 = Ok name → get_url_file_name E url2 = Ok name →
     url1 = url2) →
  files (run_fetch_app_ids_tasks E urls1 dir w).2
  = files (run_fetch_app_ids_tasks E urls2 dir w).2.
Proof.
  intros Hperm Hinj.
  destruct (run_fetch_app_ids_tasks_files E dir urls1 w) as (r1 & tr1 & ->).
  destruct (run_fetch_app_ids_tasks_files E dir urls2 w) as (r2 & tr2 & ->).
  simpl. apply foldl_comm_perm; [done|].
  intros x y fs Hx Hy. apply after_task_comm. intros name. by apply Hinj.
Qed.

(** ** The whole run *)

Section WholeRun.
Context (E : Env) (HE : EnvOk E) (dir out : string).

Lemma get_url_file_name_raise (url : string) (e : exn) :
  get_url_file_name E url = Raise e → e = ValueError ∧ urlparse E url = None.
Proof.
  unfold get_url_file_name. destruct (urlparse E url); simpl; [done|].
  by intros [= <-].
Qed.

Lemma without_records_Raise (R : gset string) (l : list string) (url : string) :
  url ∈ l → urlparse E url = None →
  without_records E R l = Raise ValueError.
Proof.
  intros Hin Hurl. induction l as [|i l IH]; [by apply elem_of_nil in Hin|].
  simpl. destruct (get_url_file_name E i) as [name|e] eqn:Hi; simpl.
  - apply elem_of_cons in Hin as [-> | Hin].
    + unfold get_url_file_name in Hi. by rewrite Hurl in Hi.
    + by rewrite IH.
  - by apply get_url_file_name_raise in Hi as [-> _].
Qed.

Lemma check_records_files (urls : gset string) (w : World) :
  ∃ r tr,
    check_records E urls dir w = (r, mkWorld (files w) (dirs w) (trace w ++ tr)).
Proof.
  destruct (decide (dir ∈ dirs w)) as [Hdir|Hdir].
  - rewrite (check_records_run E) by done. by eexists _, _.
  - rewrite check_records_no_dir by done. exists (Ok (elements urls)), [].
    rewrite (right_id_L [] (++)). by destruct w.
Qed.

(** The merge changes no file but the output. *)
Lemma concat_all_app_ids_other (w : World) (p : string) :
  p ≠ out →
  files (concat_all_app_ids E dir out w).2 !! p = files w !! p.
Proof.
  intros Hne. unfold concat_all_app_ids. rewrite bind_run. unfold os_listdir.
  destruct (bool_decide (dir ∈ dirs w)); [|done].
  rewrite bind_run. unfold open_w.
  destruct (open_w_ok E out); [|done]. cbn [files dirs trace].
  set (w1 := mkWorld _ _ _).
  transitivity (files w1 !! p); [|simpl; by rewrite lookup_insert_ne].
  generalize (merge_sort String.le
    (Path.join dir <$> filter (λ i, Is_true (is_record_name i))
       (listdir_order E (entries (files w) dir)))).
  clearbody w1. intros l. revert w1.
  induction l as [|q l IH]; intros w1; simpl; [done|].
  rewrite bind_run. rewrite bind_run. unfold read.
  destruct (files w1 !! q) as [data|]; [|done].
  destruct (open_r_ok E q); [|done]. unfold write. cbn [files dirs trace].
  destruct (write_cut E out data); simpl.
  - by rewrite lookup_insert_ne.
  - rewrite IH. simpl. by rewrite lookup_insert_ne.
Qed.

Lemma combining_run (w : World) :
  combining E dir out w =
    if bool_decide (is_Some (files w !! out)) then (Ok (), w)
    else match concat_all_app_ids E dir out w with
         | (Ok _, w') => print "" w'
         | (Raise e, w') => (Raise e, w')
         end.
Proof.
  unfold combining. rewrite bind_run. unfold os_path_isfile.
  destruct (bool_decide _); simpl; [done|]. by rewrite bind_run.
Qed.

Lemma combining_other (w : World) (p : string) :
  p ≠ out → files (combining E dir out w).2 !! p = files w !! p.
Proof.
  intros Hne. rewrite combining_run. destruct (bool_decide _); [done|].
  rewrite <-(concat_all_app_ids_other w p Hne).
  by destruct (concat_all_app_ids E dir out w) as [[[]|e] w'].
Qed.


(** The stages of [fetch_app_ids], one after the other. *)
Lemma fetch_app_ids_run (urls : gset string) (w : World) :
  fetch_app_ids E urls dir out w =
    match check_records E urls dir w with
    | (Raise e, w1) => (Raise e, w1)
    | (Ok pending, w1) =>
        match fetching E pending dir w1 with
        | (Raise e, w2) => (Raise e, w2)
        | (Ok _, w2) =>
            match combining E dir out (print "Combining app ids" w2).2 with
            | (Raise e, w3) => (Raise e, w3)
            | (Ok _, w3) => print "Done" w3
            end
        end
    end.
Proof.
  unfold fetch_app_ids. rewrite bind_run.
  destruct (check_records E urls dir w) as [[pending|e] w1]; [|done].
  rewrite bind_run.
  destruct (fetching E pending dir w1) as [[[]|e] w2]; [|done].
  rewrite bind_run. unfold print at 1, emit at 1. by rewrite bind_run.
Qed.

(** The files a whole run leaves, away from the output. *)
Lemma fetch_app_ids_other (urls : gset string) (w : World) (p : string) :
  p ≠ out →
  files (fetch_app_ids E urls dir out w).2 !! p = files w !! p
  ∨ ∃ pending w1,
      check_records E urls dir w = (Ok pending, w1)
      ∧ files (fetch_app_ids E urls dir out w).2 !! p
        = foldl (after_task E dir) (files w) (merge_sort String.le pending) !! p.
Proof.
  intros Hne. rewrite fetch_app_ids_run.
  destruct (check_records_files urls w) as (rc & tr1 & Hc). rewrite Hc.
  destruct rc as [pending|e]; [|by left]. right. eexists _, _.
  split; [reflexivity|].
  edestruct (fetching_files E dir pending) as (rf & tr2 & ->).
  destruct rf as [[]|e]; [|done]. cbn [files dirs trace].
  set (w3 := (print _ _).2).
  transitivity (files (combining E dir out w3).2 !! p).
  - by destruct (combining E dir out w3) as [[[]|e] w4].
  - by rewrite combining_other.
Qed.

End WholeRun.

Section WholeRunFiles.
Context (E : Env) (HE : EnvOk E) (dir out : string).

(** A whole run leaves alone what lies outside the cache directory, but
    for an output it creates. *)
Lemma fetch_app_ids_outside (urls : gset string) (w : World) (p : string) :
  entry_name dir p = None →
  p ≠ out ∨ is_Some (files w !! out) →
  files (fetch_app_ids E urls dir out w).2 !! p = files w !! p.
Proof.
  intros Hentry Hcase. rewrite fetch_app_ids_run.
  destruct (check_records_files E dir urls w) as (rc & tr1 & ->).
  destruct rc as [pending|e]; [|done].
  edestruct (fetching_files E dir pending) as (rf & tr2 & ->).
  cbn [files dirs trace].
  set (fs := foldl (after_task E dir) (files w) (merge_sort String.le pending)).
  assert (∀ q, entry_name dir q = None → fs !! q = files w !! q) as Hfs
    by (intros q Hq; unfold fs; by rewrite after_pool_outside).
  destruct rf as [[]|e]; [|by apply Hfs].
  set (w3 := (print _ _).2).
  assert (files w3 = fs) as Hw3 by done.
  transitivity (files (combining E dir out w3).2 !! p).
  { by destruct (combining E dir out w3) as [[[]|e] w4]. }
  destruct (decide (p = out)) as [->|Hne];
    [|by rewrite combining_other, Hw3, Hfs].
  destruct Hcase as [?|Hout]; [done|].
  rewrite combining_run, bool_decide_eq_true_2.
  - cbn [snd]. by rewrite Hw3, Hfs.
  - by rewrite Hw3, Hfs.
Qed.


End WholeRunFiles.

Section Progress.
Context (E : Env) (HE : EnvOk E) (dir : string).

Lemma without_records_total (R : gset string) (l : list string) :
  Forall (has_key E) l → ∃ pending, without_records E R l = Ok pending.
Proof.
  induction 1 as [|i l [name Hi] _ [kept IH]]; simpl; [by eexists|].
  rewrite Hi, IH. simpl. by eexists.
Qed.

Lemma startswith_dot_app (s t : string) :
  s ≠ "" → Py.startswith (s +:+ t) "." = Py.startswith s ".".
Proof.
  destruct s as [|a s]; [done|]. intros _. simpl.
  destruct (Ascii.eqb "." a); [|done]. by destruct (s +:+ t), s.
Qed.

(** A name among the record names is the key of a record file in place,
    is not empty and does not start with a dot. *)
Lemma record_name_inv (fs : gmap string string) (name : string) :
  name ∈ record_names_of (listdir_order E (entries fs dir)) →
  name ≠ "" ∧ Py.startswith name "." = false
  ∧ is_Some (fs !! Path.join dir (name +:+ ".txt")).
Proof.
  intros (n & Hn & Hrec & ->)%(elem_of_record_names E HE).
  unfold is_record_name in Hrec.
  apply andb_true_iff in Hrec as [Hdot [k ->]%endswith_spec].
  rewrite drop_last_app.
  apply elem_of_entries in Hn as (_ & _ & Hfile).
  apply negb_true_iff in Hdot.
  destruct (decide (k = "")) as [->|Hk]; [done|].
  by rewrite startswith_dot_app in Hdot.
Qed.

(** No pending URL has the target of a record in place. *)
Lemma pending_targets_fresh (R : gset string) (l pending : list string)
    (name : string) :
  without_records E R l = Ok pending → name ∈ R →
  Py.contains Path.sep name = false →
  Forall (λ url, ∀ k, get_url_file_name E url = Ok k →
                      Path.join dir (k +:+ ".txt")
                      ≠ Path.join dir (name +:+ ".txt"))
         (merge_sort String.le pending).
Proof.
  intros [_ Hpending]%without_records_Ok HR Hsep. apply Forall_forall.
  intros url Hurl k Hk Heq. rewrite merge_sort_Permutation in Hurl.
  apply Hpending in Hurl as (_ & k' & Hk' & Hnot).
  assert (k' = k) as -> by congruence.
  apply target_inj in Heq as ->; [done| |done].
  by eapply get_url_file_name_no_sep.
Qed.

(** The record of a URL whose task succeeds is in place after the pool,
    when no other URL of the pool has the same file name. *)
Lemma after_pool_unique (urls : list string) (fs : gmap string string)
    (url name : string) :
  get_url_file_name E url = Ok name →
  task_result E dir url = Ok true →
  (∀ u, u ∈ urls → get_url_file_name E u = Ok name → u = url) →
  url ∈ urls ∨ is_Some (fs !! Path.join dir (name +:+ ".txt")) →
  is_Some (foldl (after_task E dir) fs urls !! Path.join dir (name +:+ ".txt")).
Proof.
  intros Hname Hres. revert fs.
  induction urls as [|u urls IH]; intros fs Huniq Hin; simpl.
  - by destruct Hin as [?%elem_of_nil|?].
  - assert (∀ u', u' ∈ urls → get_url_file_name E u' = Ok name → u' = url)
      as Huniq' by (intros u' Hu'; apply Huniq; by constructor).
    assert (get_url_file_name E u = Ok name
            ∨ get_url_file_name E u ≠ Ok name) as [Hu|Hu].
    { destruct (get_url_file_name E u) as [k|e]; [|by right].
      destruct (decide (k = name)) as [->|]; [by left|right; congruence]. }
    + rewrite (Huniq u) by (done || constructor).
      apply IH; [done|]. right.
      destruct (after_task_insert E dir fs url name Hres Hname) as [data ->].
      by rewrite lookup_insert_eq.
    + apply IH; [done|].
      destruct Hin as [[-> | Hin]%elem_of_cons | Hfile]; [done|by left|].
      right. rewrite after_task_other; [done|].
      intros k Hk Heq. apply Hu. rewrite Hk. f_equal.
      eapply target_inj; [..|exact Heq]; by eapply get_url_file_name_no_sep.
Qed.

End Progress.

(** X4. The record check, in full: with the cache directory in place, a
    URL stays pending exactly when its record is not there, or its file
    name is empty or starts with a dot. *)
Theorem pending_iff_no_usable_record (E : Env) (urls : gset string)
    (dir : string) (w w1 : World) (pending : list string) (url name : string) :
  EnvOk E →
  dir ∈ dirs w →
  check_records E urls dir w = (Ok pending, w1) →
  url ∈ urls →
  get_url_file_name E url = Ok name →
  url ∈ pending ↔
    name = "" ∨ Py.startswith name "." = true
    ∨ files w !! Path.join dir (name +:+ ".txt") = None.
Proof.
  intros HE Hdir Hcheck Hurl Hname.
  rewrite (check_records_run E) in Hcheck by done. injection Hcheck as Hcheck _.
  apply without_records_Ok in Hcheck as [_ Hpending]. rewrite Hpending.
  split.
  - intros (_ & name' & Hname' & Hnot).
    assert (name' = name) as -> by congruence.
    destruct (decide (name = "")) as [|Hne]; [by left|]. right.
    destruct (Py.startswith name ".") eqn:Hdot; [by left|]. right.
    destruct (files w !! _) as [data|] eqn:Hfile; [|done].
    exfalso. apply Hnot. apply (record_name_of_key E HE); [|done..|by eexists].
    by eapply get_url_file_name_no_sep.
  - intros Hcase. split; [by apply elem_of_elements|].
    exists name. split; [done|].
    intros (Hne & Hdot & [data Hfile])%(record_name_inv E HE).
    destruct Hcase as [?|[?|?]]; congruence.
Qed.

(** X5. The pending URLs of a run are among those of the run before: the
    fetch stage, whatever its tasks return, loses no record the check has
    counted. *)
Theorem pending_never_grows (E : Env) (urls : gset string) (dir : string)
    (w w1 w2 w3 w4 : World) (pending pending' : list string) (r : result unit) :
  EnvOk E →
  dir ∈ dirs w →
  check_records E urls dir w = (Ok pending, w1) →
  fetching E pending dir w1 = (r, w2) →
  files w3 = files w2 → dirs w3 = dirs w2 →
  check_records E urls dir w3 = (Ok pending', w4) →
  ∀ url, url ∈ pending' → url ∈ pending.
Proof.
  intros HE Hdir Hcheck Hfetch Hfiles Hdirs Hcheck' url Hurl.
  rewrite (check_records_run E) in Hcheck by done.
  injection Hcheck as Hcheck <-.
  destruct (fetching_files E dir pending
              (mkWorld (files w) (dirs w)
                 (trace w ++ [EvPrint "Checking records"; EvListdir dir])))
    as (r' & tr & Htr).
  rewrite Htr in Hfetch. injection Hfetch as _ <-. simpl in Hfiles, Hdirs.
  rewrite (check_records_run E) in Hcheck' by (by rewrite Hdirs).
  injection Hcheck' as Hcheck' _.
  pose proof Hcheck as [_ Hpending]%without_records_Ok.
  apply without_records_Ok in Hcheck' as [_ Hpending'].
  apply Hpending' in Hurl as (Hin & name & Hname & Hnot).
  apply Hpending. split; [done|]. exists name. split; [done|].
  intros HR. apply Hnot.
  pose proof HR as (Hne & Hdot & Hfile)%(record_name_inv E HE).
  assert (Py.contains Path.sep name = false) as Hsep
    by (by eapply get_url_file_name_no_sep).
  apply (record_name_of_key E HE); [done..|].
  rewrite Hfiles. rewrite after_pool_other; [done|].
  by eapply pending_targets_fresh.
Qed.

(** X6. A pending shard whose fetch succeeds is recorded and drops out of
    the next run, whatever the other tasks of the run return, when its
    file name is not empty, does not start with a dot and is shared with no
    other pending URL. *)
Theorem fetched_shard_leaves_pending (E : Env) (urls : gset string)
    (dir : string) (w w1 w2 w3 : World) (pending : list string)
    (r : result unit) (url name : string) :
  EnvOk E →
  dir ∈ dirs w →
  check_records E urls dir w = (Ok pending, w1) →
  fetching E pending dir w1 = (r, w2) →
  files w3 = files w2 → dirs w3 = dirs w2 →
  url ∈ pending →
  get_url_file_name E url = Ok name →
  name ≠ "" → Py.startswith name "." = false →
  (∀ u, u ∈ pending → get_url_file_name E u = Ok name → u = url) →
  (fetch_app_ids_task E url dir w).1 = Ok true →
  ∃ pending' w4,
    check_records E urls dir w3 = (Ok pending', w4) ∧ url ∉ pending'.
Proof.
  intros HE Hdir Hcheck Hfetch Hfiles Hdirs Hurl Hname Hne Hdot Huniq Hok.
  rewrite (check_records_run E) in Hcheck by done.
  injection Hcheck as Hcheck <-.
  destruct (fetching_files E dir pending
              (mkWorld (files w) (dirs w)
                 (trace w ++ [EvPrint "Checking records"; EvListdir dir])))
    as (r' & tr & Htr).
  rewrite Htr in Hfetch. injection Hfetch as _ <-. simpl in Hfiles, Hdirs.
  pose proof Hcheck as [Hkeys _]%without_records_Ok.
  rewrite (check_records_run E) by (by rewrite Hdirs).
  edestruct (without_records_total E) as [pending' Hcheck']; [exact Hkeys|].
  rewrite Hcheck'. eexists _, _. split; [done|].
  apply without_records_Ok in Hcheck' as [_ Hpending'].
  intros (_ & name' & Hname' & Hnot)%Hpending'.
  assert (name' = name) as -> by congruence.
  apply Hnot, (record_name_of_key E HE); [|done..|].
  { by eapply get_url_file_name_no_sep. }
  rewrite Hfiles. apply after_pool_unique with (url := url); [done| | |].
  - destruct (task_run E dir url w) as (tr' & Hrun & _).
    by rewrite Hrun in Hok.
  - intros u Hu. apply Huniq. by rewrite merge_sort_Permutation in Hu.
  - left. by rewrite merge_sort_Permutation.
Qed.

(** X7. One URL that [urlparse] rejects stops the whole run at the record
    check, when the cache directory is in place: [ValueError] is raised
    with no fetch started, no file touched and nothing merged, whatever
    else is pending. *)
Theorem rejected_url_stops_run (E : Env) (urls : gset string)
    (dir out url : string) (w : World) :
  dir ∈ dirs w →
  url ∈ urls →
  urlparse E url = None →
  fetch_app_ids E urls dir out w =
    (Raise ValueError,
     mkWorld (files w) (dirs w)
             (trace w ++ [EvPrint "Checking records"; EvListdir dir])).
Proof.
  intros Hdir Hurl Hparse. rewrite fetch_app_ids_run.
  rewrite (check_records_run E) by done.
  by rewrite (without_records_Raise E _ _ url) by (by rewrite ?elem_of_elements).
Qed.

(** X8. A run never refreshes an output file that is already there, also
    when it fetches new records: whatever the run does and however it
    ends, an output kept outside the cache directory holds afterwards what
    it held before. *)
Theorem existing_output_is_kept (E : Env) (urls : gset string)
    (dir out data : string) (w : World) :
  entry_name dir out = None →
  files w !! out = Some data →
  files (fetch_app_ids E urls dir out w).2 !! out = Some data.
Proof.
  intros Hentry Hout. rewrite fetch_app_ids_run.
  destruct (check_records_files E dir urls w) as (rc & tr1 & ->).
  destruct rc as [pending|e]; [|done].
  edestruct (fetching_files E dir pending) as (rf & tr2 & ->).
  cbn [files dirs trace].
  assert (foldl (after_task E dir) (files w) (merge_sort String.le pending)
            !! out = Some data) as Hout'
    by (by rewrite after_pool_outside).
  destruct rf as [[]|e]; [|done].
  rewrite combining_run. unfold print, emit. cbn [files dirs trace snd].
  by rewrite bool_decide_eq_true_2 by (by rewrite Hout').
Qed.

Section Outside.
Context (dir p data : string) (Hentry : entry_name dir p = None).




End Outside.


(** X10. A record in place is safe from later runs: with the cache
    directory in place, no run overwrites or removes the record of a file
    name that is not empty and does not start with a dot, however the run
    ends. *)
Theorem recorded_shards_untouched (E : Env) (urls : gset string)
    (dir out name : string) (w : World) :
  EnvOk E →
  dir ∈ dirs w →
  Py.contains Path.sep name = false →
  name ≠ "" → Py.startswith name "." = false →
  Path.join dir (name +:+ ".txt") ≠ out →
  is_Some (files w !! Path.join dir (name +:+ ".txt")) →
  files (fetch_app_ids E urls dir out w).2 !! Path.join dir (name +:+ ".txt")
  = files w !! Path.join dir (name +:+ ".txt").
Proof.
  intros HE Hdir Hsep Hne Hdot Hout Hfile.
  destruct (fetch_app_ids_other E dir out urls w _ Hout)
    as [Hsame | (pending & w1 & Hcheck & ->)]; [done|].
  rewrite (check_records_run E) in Hcheck by done. injection Hcheck as Hcheck _.
  apply after_pool_other. eapply pending_targets_fresh; [exact Hcheck| |done].
  by apply (record_name_of_key E HE).
Qed.

(** ** Traces *)

Section Emits.
Context (E : Env).

Lemma emits_ret {A} (P : Event → Prop) (a : A) : emits P (mret a : M A).
Proof. intros w. exists []. by rewrite (right_id_L [] (++)). Qed.

Lemma emits_lift {A} (P : Event → Prop) (r : result A) : emits P (lift r).
Proof. intros w. exists []. by rewrite (right_id_L [] (++)). Qed.

Lemma emits_emit (P : Event → Prop) (ev : Event) : P ev → emits P (emit ev).
Proof. intros Hev w. exists [ev]. split; [done|]. by constructor. Qed.

Lemma emits_mono {A} (P Q : Event → Prop) (m : M A) :
  (∀ ev, P ev → Q ev) → emits P m → emits Q m.
Proof.
  intros HPQ Hm w. destruct (Hm w) as (tr & Htr & HP). exists tr.
  split; [done|]. by eapply Forall_impl.
Qed.

Lemma emits_bind {A B} (P : Event → Prop) (m : M A) (f : A → M B) :
  emits P m → (∀ a, emits P (f a)) → emits P (m ≫= f).
Proof.
  intros Hm Hf w. rewrite bind_run. destruct (Hm w) as (tr1 & Htr1 & HP1).
  destruct (m w) as [[a|e] w1]; simpl in Htr1.
  - destruct (Hf a w1) as (tr2 & Htr2 & HP2). exists (tr1 ++ tr2).
    rewrite Htr2, Htr1, (assoc_L (++)). split; [done|]. by apply Forall_app.
  - by exists tr1.
Qed.

Lemma emits_try_except {A} (P : Event → Prop) (body handler : M A) :
  emits P body → emits P handler → emits P (try_except body handler).
Proof.
  intros Hb Hh w. unfold try_except. destruct (Hb w) as (tr1 & Htr1 & HP1).
  destruct (body w) as [[a|e] w1]; simpl in Htr1.
  - by exists tr1.
  - destruct (Hh w1) as (tr2 & Htr2 & HP2). exists (tr1 ++ tr2).
    rewrite Htr2, Htr1, (assoc_L (++)). split; [done|]. by apply Forall_app.
Qed.

Lemma emits_for_each {A} (P : Event → Prop) (l : list A) (body : A → M unit) :
  (∀ x, emits P (body x)) → emits P (for_each l body).
Proof.
  intros Hbody. induction l as [|x l IH]; simpl.
  - apply emits_ret.
  - apply emits_bind; [apply Hbody | by intros _].
Qed.

Lemma emits_os_path_isfile (P : Event → Prop) (p : string) :
  emits P (os_path_isfile p).
Proof. intros w. exists []. by rewrite (right_id_L [] (++)). Qed.

Lemma emits_os_path_isdir (P : Event → Prop) (p : string) :
  emits P (os_path_isdir p).
Proof. intros w. exists []. by rewrite (right_id_L [] (++)). Qed.

Lemma emits_os_remove (P : Event → Prop) (p : string) :
  P (EvRemove p) → emits P (os_remove p).
Proof.
  intros HP w. unfold os_remove. destruct (files w !! p).
  - exists [EvRemove p]. split; [done|]. by constructor.
  - exists []. by rewrite (right_id_L [] (++)).
Qed.

Lemma emits_open_w (P : Event → Prop) (p : string) :
  P (EvOpenW p) → emits P (open_w E p).
Proof.
  intros HP w. unfold open_w. destruct (open_w_ok E p).
  - exists [EvOpenW p]. split; [done|]. by constructor.
  - exists []. by rewrite (right_id_L [] (++)).
Qed.

Lemma emits_write (P : Event → Prop) (p data : string) :
  (∀ d, P (EvWrite p d)) → emits P (write E p data).
Proof.
  intros HP w. unfold write. destruct (write_cut E p data);
    (eexists [_]; split; [done|]; by constructor).
Qed.



(** Lines 41-47: the task's work on the disk concerns its target only. *)
Lemma emits_persist (p : string) (lines : list string) :
  emits (touches p) (open_w E p;; writelines E p lines;; mret true).
Proof.
  apply emits_bind; [apply emits_open_w; by left|]. intros _.
  apply emits_bind; [|intros _; apply emits_ret].
  apply emits_for_each. intros l. apply emits_write. intros d. right. left. eauto.
Qed.

Lemma emits_handler (p : string) :
  emits (touches p)
    (b ← os_path_isfile p;
     (if b : bool then os_remove p else mret ());;
     mret false).
Proof.
  apply emits_bind; [apply emits_os_path_isfile|]. intros b.
  apply emits_bind; [|intros _; apply emits_ret].
  destruct b; [apply emits_os_remove; by right; right | apply emits_ret].
Qed.


Lemma requests_app (tr1 tr2 : list Event) :
  requests (tr1 ++ tr2) = requests tr1 ++ requests tr2.
Proof. apply omap_app. Qed.

Lemma printed_app (tr1 tr2 : list Event) :
  printed (tr1 ++ tr2) = printed tr1 ++ printed tr2.
Proof. apply omap_app. Qed.

Lemma touches_quiet (p : string) (tr : list Event) :
  Forall (touches p) tr → requests tr = [] ∧ printed tr = [].
Proof.
  induction 1 as [|ev tr Hev _ [IH1 IH2]]; [done|].
  by destruct Hev as [->|[[d ->]| ->]].
Qed.


(** The trace of a task. *)
Lemma task_trace (url dir name : string) (w : World) :
  get_url_file_name E url = Ok name →
  ∃ tr,
    trace (fetch_app_ids_task E url dir w).2 = trace w ++ EvUrlopen url :: tr
    ∧ Forall (touches (Path.join dir (name +:+ ".txt"))) tr.
Proof.
  intros Hname. unfold fetch_app_ids_task.
  rewrite bind_run. unfold lift at 1. rewrite Hname.
  set (p := Path.join dir (name +:+ ".txt")).
  unfold try_except. rewrite extract_run.
  set (w1 := mkWorld (files w) (dirs w) (trace w ++ [EvUrlopen url])).
  destruct (shard_app_ids E url) as [app_ids|e].
  - destruct (emits_persist p ((λ i, i +:+ nl) <$> app_ids) w1)
      as (tr1 & Htr1 & HP1).
    destruct ((open_w E p;; writelines E p _;; mret true) w1) as [[b|e] w2];
      simpl in Htr1.
    + exists tr1. simpl. by rewrite Htr1, <-(assoc_L (++)).
    + destruct (emits_handler p w2) as (tr2 & Htr2 & HP2).
      exists (tr1 ++ tr2). rewrite Htr2, Htr1. simpl.
      rewrite <-!(assoc_L (++)). split; [done|]. by apply Forall_app.
  - destruct (emits_handler p w1) as (tr2 & Htr2 & HP2).
    exists tr2. rewrite Htr2. simpl. by rewrite <-(assoc_L (++)).
Qed.

Lemma task_requests (url dir : string) (w : World) :
  ∃ tr,
    trace (fetch_app_ids_task E url dir w).2 = trace w ++ tr
    ∧ requests tr = match urlparse E url with Some _ => [url] | None => [] end
    ∧ printed tr = [].
Proof.
  destruct (get_url_file_name E url) as [name|e] eqn:Hname.
  - destruct (task_trace url dir name w Hname) as (tr & Htr & [Hq Hp]%touches_quiet).
    exists (EvUrlopen url :: tr). split; [done|].
    unfold get_url_file_name in Hname.
    destruct (urlparse E url); [|done]. simpl.
    fold (requests tr) (printed tr). by rewrite Hq, Hp.
  - pose proof (get_url_file_name_raise E url e Hname) as [_ Hparse].
    rewrite (fetch_app_ids_task_raise E url dir w e Hname), Hparse.
    exists []. by rewrite (right_id_L [] (++)).
Qed.

Lemma pool_requests (urls : list string) (dir : string) (w : World) :
  ∃ tr,
    trace (run_in_executor ((λ url, fetch_app_ids_task E url dir) <$> urls) w).2
      = trace w ++ tr
    ∧ requests tr = filter (λ url, is_Some (urlparse E url)) urls
    ∧ printed tr = [].
Proof.
  revert w. induction urls as [|url urls IH]; intros w.
  - exists []. by rewrite (right_id_L [] (++)).
  - rewrite fmap_cons, run_in_executor_cons. simpl.
    destruct (task_requests url dir w) as (tr1 & Htr1 & Hq1 & Hp1).
    destruct (IH (fetch_app_ids_task E url dir w).2) as (tr2 & Htr2 & Hq2 & Hp2).
    exists (tr1 ++ tr2). rewrite Htr2, Htr1, (assoc_L (++)).
    split; [done|]. rewrite requests_app, printed_app, Hq1, Hq2, Hp1, Hp2.
    split; [|done]. rewrite filter_cons.
    destruct (urlparse E url); [by rewrite decide_True by eauto|].
    by rewrite decide_False by (by intros [? ?]).
Qed.

End Emits.


Section RunTraces.
Context (E : Env) (dir : string).

Lemma task_results_Raise (urls : list string) (url : string) :
  url ∈ urls → urlparse E url = None →
  comprehension (λ r, r) (task_result E dir <$> urls) = Raise ValueError.
Proof.
  intros Hin Hparse. induction urls as [|u urls IH];
    [by apply elem_of_nil in Hin|].
  rewrite fmap_cons. cbn [comprehension].
  destruct (task_result E dir u) as [b|e] eqn:Hres;
    cbv beta iota delta [mbind result_bind].
  - apply elem_of_cons in Hin as [-> | Hin].
    + unfold task_result, get_url_file_name in Hres. by rewrite Hparse in Hres.
    + by rewrite IH.
  - unfold task_result in Hres.
    destruct (get_url_file_name E u) as [name|e'] eqn:Hu; [done|].
    apply get_url_file_name_raise in Hu as [-> _]. by injection Hres as <-.
Qed.






End RunTraces.

(** X11. A task on a URL with a file name makes one network request, to
    its own URL and before anything else, and after that only opens,
    writes or removes its own target; a task whose URL [urlparse] rejects
    does nothing at all. *)
Theorem task_requests_own_url_once (E : Env) (url dir : string) (w : World) :
  match get_url_file_name E url with
  | Ok name =>
      ∃ tr,
        trace (fetch_app_ids_task E url dir w).2 = trace w ++ EvUrlopen url :: tr
        ∧ Forall (touches (Path.join dir (name +:+ ".txt"))) tr
        ∧ requests tr = []
  | Raise _ => (fetch_app_ids_task E url dir w).2 = w
  end.
Proof.
  destruct (get_url_file_name E url) as [name|e] eqn:Hname.
  - destruct (task_trace E url dir name w Hname) as (tr & Htr & Htouch).
    exists tr. split; [done|]. split; [done|].
    by apply touches_quiet in Htouch as [? _].
  - by rewrite (fetch_app_ids_task_raise E url dir w e).
Qed.



(** X14. When [urlparse] rejects one of the URLs, the pool still runs the
    task of every other URL, then raises [ValueError] in place of the
    results and prints no summary of failures. *)
Theorem pool_raises_after_all_tasks (E : Env) (urls : list string)
    (dir url : string) (w : World) :
  url ∈ urls →
  urlparse E url = None →
  (run_fetch_app_ids_tasks E urls dir w).1 = Raise ValueError
  ∧ ∃ tr,
      trace (run_fetch_app_ids_tasks E urls dir w).2 = trace w ++ tr
      ∧ printed tr = []
      ∧ ∀ u, u ∈ urls → is_Some (urlparse E u) → EvUrlopen u ∈ tr.
Proof.
  intros Hin Hparse.
  destruct (pool_requests E urls dir w) as (tr & Htr & Hq & Hp).
  destruct (run_in_executor_run E dir urls w) as (tr' & Hpool & _).
  unfold run_fetch_app_ids_tasks. rewrite bind_run. unfold gather.
  rewrite Hpool in Htr |- *.
  rewrite (task_results_Raise E dir urls url) by done. simpl in Htr |- *.
  split; [done|]. exists tr. split; [done|]. split; [done|].
  intros u Hu Hsome.
  assert (u ∈ requests tr) as Hreq by (rewrite Hq; by apply list_elem_of_filter).
  apply list_elem_of_omap in Hreq as (ev & Hev & Hu').
  destruct ev; try done. by injection Hu' as ->.
Qed.

(** ** The sitemap index *)

Section LoadRuns.
Context (E : Env) (W : Sys).

Lemma L_bind_run {A B} (m : L A) (f : A → L B) (s : Session) :
  (m ≫= f) s = match m s with
               | (Returned a, s') => f a s'
               | (Raised e, s') => (Raised e, s')
               end.
Proof. done. Qed.

Lemma read_sitemap_loc_urls_run (url : string) (s : Session) :
  read_sitemap_loc_urls W url s
  = (loc_texts W url, mkSession (world s) (gets s ++ [url])).
Proof.
  unfold read_sitemap_loc_urls, loc_texts. rewrite L_bind_run. unfold get.
  destruct (session_get W url) as [raw|]; [|done].
  rewrite L_bind_run. unfold done.
  by destruct (index_fromstring W raw).
Qed.

Lemma read_all_Returned (sitemaps_url : list string) (acc parts : gset (option string))
    (s s' : Session) :
  read_all W sitemaps_url acc s = (Returned parts, s') →
  world s' = world s
  ∧ gets s' = gets s ++ sitemaps_url
  ∧ ∀ x, x ∈ parts ↔
         x ∈ acc ∨ ∃ url texts, url ∈ sitemaps_url
                                ∧ loc_texts W url = Returned texts ∧ x ∈ texts.
Proof.
  revert acc s. induction sitemaps_url as [|url rest IH]; intros acc s; simpl.
  - intros [= <- <-]. rewrite (right_id_L [] (++)). split; [done|].
    split; [done|]. intros x. split; [by left|].
    by intros [?|(? & ? & ?%elem_of_nil & _)].
  - rewrite L_bind_run, read_sitemap_loc_urls_run.
    destruct (loc_texts W url) as [texts|e] eqn:Hurl; [|done].
    intros (Hw & Hg & Hparts)%IH. simpl in Hw, Hg.
    rewrite <-(assoc_L (++)) in Hg. split; [done|]. split; [done|].
    intros x. rewrite Hparts, elem_of_union, elem_of_list_to_set. split.
    + intros [[?|?]|(u & t & Hu & Ht & Hx)]; [by left| |].
      * right. exists url, texts. split; [by left|done].
      * right. exists u, t. split; [by right|done].
    + intros [?|(u & t & [->|Hu]%elem_of_cons & Ht & Hx)]; [by left; left| |].
      * left. right. congruence.
      * right. by exists u, t.
Qed.

Lemma read_all_Raised (sitemaps_url : list string) (acc : gset (option string))
    (s s' : Session) (e : error) :
  read_all W sitemaps_url acc s = (Raised e, s') →
  world s' = world s ∧ (e = NetworkError ∨ e = Std XMLSyntaxError).
Proof.
  revert acc s. induction sitemaps_url as [|url rest IH]; intros acc s; simpl;
    [done|].
  rewrite L_bind_run, read_sitemap_loc_urls_run.
  destruct (loc_texts W url) as [texts|e'] eqn:Hurl.
  - by intros [Hw He]%IH.
  - intros [= <- <-]. split; [done|]. unfold loc_texts in Hurl.
    destruct (session_get W url) as [raw|]; [|left; congruence].
    destruct (index_fromstring W raw); [done|right; congruence].
Qed.

(** The set without [None] is the set, seen as strings. *)
Lemma elem_of_strings (parts : gset (option string)) (u : string) :
  u ∈ strings parts ↔ Some u ∈ parts.
Proof.
  unfold strings. rewrite elem_of_list_to_set, list_elem_of_omap. split.
  - intros ([x|] & Hx & [= ->]). by apply elem_of_elements in Hx.
  - intros Hu. exists (Some u). by rewrite elem_of_elements.
Qed.

(** Reading back what line 88 wrote. *)
Lemma lines_of_line (u rest : string) :
  Py.contains (ascii_of_nat 10) u = false →
  Py.contains (ascii_of_nat 13) u = false →
  lines_of (u +:+ nl +:+ rest) = (u +:+ nl) :: lines_of rest.
Proof.
  induction u as [|c u IH]; intros H10 H13.
  - done.
  - simpl in H10, H13 |- *.
    destruct (Ascii.eqb c (ascii_of_nat 10)); [done|].
    destruct (Ascii.eqb c (ascii_of_nat 13)); [done|].
    specialize (IH H10 H13). simpl in IH. by rewrite IH.
Qed.

Lemma lines_of_join (l : list string) :
  Forall (λ u, Py.contains (ascii_of_nat 10) u = false
               ∧ Py.contains (ascii_of_nat 13) u = false) l →
  lines_of (Py.join ((λ line, line +:+ nl) <$> l)) = (λ line, line +:+ nl) <$> l.
Proof.
  induction 1 as [|u l [H10 H13] _ IH]; [done|].
  rewrite fmap_cons. unfold Py.join. cbn [foldr].
  fold (Py.join ((λ line, line +:+ nl) <$> l)).
  by rewrite <-app_assoc, lines_of_line, IH.
Qed.

End LoadRuns.

Section LoadStage.
Context (E : Env) (W : Sys).

(** Lines 82-83, with the cache file or a directory at the path. *)
Lemma load_cached (sitemaps_url : list string) (sitemaps_path : string)
    (s : Session) :
  is_Some (files (world s) !! sitemaps_path) ∨ sitemaps_path ∈ dirs (world s) →
  load_sitemap_parts_url E W sitemaps_url sitemaps_path s =
    match readlines E sitemaps_path (world (announced s)) with
    | (Ok lines, w) =>
        (Returned (list_to_set (strip W <$> lines)), mkSession w (gets s))
    | (Raise e, w) => (Raised (Std e), mkSession w (gets s))
    end.
Proof.
  intros Hthere. unfold load_sitemap_parts_url.
  rewrite L_bind_run. unfold run at 1, print, emit. cbn [world gets].
  rewrite L_bind_run. unfold run at 1, os_path_exists. cbn [world gets files dirs].
  rewrite bool_decide_eq_true_2 by done.
  rewrite L_bind_run. unfold run at 1. cbn [world gets]. unfold announced.
  by destruct (readlines E sitemaps_path _) as [[lines|e] w].
Qed.

(** Lines 85-89, with nothing at the path. *)
Lemma load_live (sitemaps_url : list string) (sitemaps_path : string)
    (s : Session) :
  files (world s) !! sitemaps_path = None → sitemaps_path ∉ dirs (world s) →
  load_sitemap_parts_url E W sitemaps_url sitemaps_path s =
    match read_all W sitemaps_url ∅ (announced s) with
    | (Raised e, s1) => (Raised e, s1)
    | (Returned parts, s1) =>
        (run (open_w E sitemaps_path);;
         lines ← done (sorted_lines parts);
         run (writelines E sitemaps_path lines);;
         run (print "");;
         mret (strings parts)) s1
    end.
Proof.
  intros Hfile Hdir. unfold load_sitemap_parts_url.
  rewrite L_bind_run. unfold run at 1, print at 1, emit at 1. cbn [world gets].
  rewrite L_bind_run. unfold run at 1, os_path_exists. cbn [world gets files dirs].
  rewrite bool_decide_eq_false_2 by (rewrite Hfile; by intros [[? ?]|?]).
  by rewrite L_bind_run.
Qed.

(** What a live load that returns has done. *)
Lemma load_live_Returned (sitemaps_url : list string) (sitemaps_path : string)
    (s s1 : Session) (urls : gset string) :
  files (world s) !! sitemaps_path = None → sitemaps_path ∉ dirs (world s) →
  load_sitemap_parts_url E W sitemaps_url sitemaps_path s = (Returned urls, s1) →
  gets s1 = gets s ++ sitemaps_url
  ∧ dirs (world s1) = dirs (world s)
  ∧ files (world s1) = <[sitemaps_path := sitemaps_text urls]> (files (world s))
  ∧ ∀ u, u ∈ urls ↔
         ∃ url texts, url ∈ sitemaps_url ∧ loc_texts W url = Returned texts
                      ∧ Some u ∈ texts.
Proof.
  intros Hfile Hdir. rewrite load_live by done.
  destruct (read_all W sitemaps_url ∅ (announced s)) as [[parts|e] s0] eqn:Hall;
    [|done].
  apply read_all_Returned in Hall as (Hw & Hg & HS).
  rewrite L_bind_run. unfold run at 1, open_w.
  destruct (open_w_ok E sitemaps_path); [|done]. cbn [world gets].
  rewrite L_bind_run. unfold done, sorted_lines.
  destruct (bool_decide (None ∈ parts)); [done|].
  rewrite L_bind_run. unfold run at 1. cbn [world gets].
  edestruct (writelines_run E sitemaps_path
               ((λ line, line +:+ nl) <$> merge_sort String.le (elements (strings parts)))
               (mkWorld (<[sitemaps_path:=""]> (files (world s0))) (dirs (world s0))
                        (trace (world s0) ++ [EvOpenW sitemaps_path])) "")
    as [tr ->]; [simpl; by rewrite lookup_insert_eq|].
  destruct (written E sitemaps_path _).2 eqn:Hwritten; [|done].
  rewrite written_complete by done.
  rewrite L_bind_run. unfold run, print, emit. cbn [world gets files dirs trace].
  intros [= <- <-]. cbn [world gets files dirs]. rewrite Hw, Hg. simpl.
  split; [done|]. split; [done|]. split; [by rewrite insert_insert_eq|].
  intros u. rewrite elem_of_strings, HS. split.
  - by intros [?%elem_of_empty|?].
  - by right.
Qed.

End LoadStage.

(** X15. A live load that returns has requested every sitemap once, in
    the order given, has found as shard URLs the texts of the [loc]
    elements of those sitemaps, and has left them in the cache file, one
    per line, without duplicates, in ascending order. *)
Theorem live_load_caches_every_loc (E : Env) (W : Sys)
    (sitemaps_url : list string) (sitemaps_path : string) (s s1 : Session)
    (urls : gset string) :
  files (world s) !! sitemaps_path = None →
  sitemaps_path ∉ dirs (world s) →
  load_sitemap_parts_url E W sitemaps_url sitemaps_path s = (Returned urls, s1) →
  gets s1 = gets s ++ sitemaps_url
  ∧ files (world s1)
    = <[sitemaps_path :=
          Py.join ((λ line, line +:+ nl)
                     <$> merge_sort String.le (elements urls))]> (files (world s))
  ∧ ∀ u, u ∈ urls ↔
         ∃ url raw tree n,
           url ∈ sitemaps_url ∧ session_get W url = Some raw
           ∧ index_fromstring W raw = Some tree
           ∧ n ∈ xpath_loc tree ∧ node_text n = Some u.
Proof.
  intros Hfile Hdir Hload.
  apply load_live_Returned in Hload as (Hg & _ & Hf & Hurls); [|done..].
  split; [done|]. split; [done|]. intros u. rewrite Hurls. split.
  - intros (url & texts & Hin & Htexts & Hu). unfold loc_texts in Htexts.
    destruct (session_get W url) as [raw|] eqn:Hraw; [|done].
    destruct (index_fromstring W raw) as [tree|] eqn:Htree; [|done].
    injection Htexts as <-. apply list_elem_of_fmap in Hu as (n & Hn & Hin').
    by exists url, raw, tree, n.
  - intros (url & raw & tree & n & Hin & Hraw & Htree & Hn & Hu).
    exists url, (node_text <$> xpath_loc tree). split; [done|].
    unfold loc_texts. rewrite Hraw, Htree. split; [done|].
    rewrite <-Hu. by apply list_elem_of_fmap_2.
Qed.

(** X16. The cache file gives back what was loaded: after a live load
    that returned, a later run with the files it left loads the same set of
    shard URLs from the cache file, makes no request and ignores the
    sitemaps it is handed, provided every URL is a single line that
    [strip] leaves alone and the cache file can be read. *)
Theorem sitemap_cache_round_trip (E : Env) (W : Sys)
    (sitemaps_url sitemaps_url' : list string) (sitemaps_path : string)
    (s s1 s2 : Session) (urls : gset string) :
  files (world s) !! sitemaps_path = None →
  sitemaps_path ∉ dirs (world s) →
  load_sitemap_parts_url E W sitemaps_url sitemaps_path s = (Returned urls, s1) →
  (∀ u, u ∈ urls →
        strip W (u +:+ nl) = u
        ∧ Py.contains (ascii_of_nat 10) u = false
        ∧ Py.contains (ascii_of_nat 13) u = false) →
  open_r_ok E sitemaps_path = true →
  files (world s2) = files (world s1) →
  ∃ s3,
    load_sitemap_parts_url E W sitemaps_url' sitemaps_path s2 = (Returned urls, s3)
    ∧ gets s3 = gets s2
    ∧ files (world s3) = files (world s2).
Proof.
  intros Hfile Hdir Hload Hclean Hread Hfiles.
  apply load_live_Returned in Hload as (_ & _ & Hf & _); [|done..].
  assert (files (world s2) !! sitemaps_path = Some (sitemaps_text urls)) as Hcache
    by (by rewrite Hfiles, Hf, lookup_insert_eq).
  rewrite load_cached by (left; by rewrite Hcache).
  unfold readlines. cbn [announced world files dirs trace].
  rewrite Hcache, Hread. eexists. split.
  - f_equal. unfold sitemaps_text.
    assert (Forall (λ u, u ∈ urls) (merge_sort String.le (elements urls)))
      as Hall.
    { apply Forall_forall. intros u.
      by rewrite merge_sort_Permutation, elem_of_elements. }
    rewrite lines_of_join.
    2:{ eapply Forall_impl; [exact Hall|]. intros u Hu. by apply Hclean. }
    rewrite <-list_fmap_compose.
    rewrite (Forall_fmap_ext_1 _ id).
    2:{ eapply Forall_impl; [exact Hall|]. intros u Hu. by apply Hclean. }
    rewrite list_fmap_id. f_equal. apply set_eq. intros u.
    by rewrite elem_of_list_to_set, merge_sort_Permutation, elem_of_elements.
  - done.
Qed.

(** X17. A live load that fails on the network or on a sitemap that is
    not XML leaves no cache file behind: the files are as before, and the
    next run loads live again. *)
Theorem failed_live_load_leaves_no_cache (E : Env) (W : Sys)
    (sitemaps_url : list string) (sitemaps_path : string) (s s1 : Session)
    (e : error) :
  files (world s) !! sitemaps_path = None →
  sitemaps_path ∉ dirs (world s) →
  load_sitemap_parts_url E W sitemaps_url sitemaps_path s = (Raised e, s1) →
  e = NetworkError ∨ e = Std XMLSyntaxError →
  files (world s1) = files (world s) ∧ dirs (world s1) = dirs (world s).
Proof.
  intros Hfile Hdir. rewrite load_live by done.
  destruct (read_all W sitemaps_url ∅ (announced s)) as [[parts|e'] s0] eqn:Hall.
  - apply read_all_Returned in Hall as (Hw & _).
    rewrite L_bind_run. unfold run at 1, open_w.
    destruct (open_w_ok E sitemaps_path);
      [|intros [= <- <-] [?|?]; done]. cbn [world gets].
    rewrite L_bind_run. unfold done, sorted_lines.
    destruct (bool_decide (None ∈ parts)); [intros [= <- <-] [?|?]; done|].
    rewrite L_bind_run. unfold run at 1. cbn [world gets].
    edestruct (writelines_run E sitemaps_path) as [tr ->];
      [simpl; by rewrite lookup_insert_eq|].
    destruct (written E sitemaps_path _).2.
    + rewrite L_bind_run. unfold run, print, emit, mret, L_ret. by intros [=].
    + intros [= <- <-] [?|?]; done.
  - apply read_all_Raised in Hall as [Hw _]. intros [= <- <-] _.
    by rewrite Hw.
Qed.

(** X18. A [loc] element without text spoils the cache: with every
    sitemap fetched and parsed, the live load raises [TypeError] at line 88
    after it has created the cache file, and leaves it empty; a later run
    with those files finds the cache file, loads no URL at all from it and
    makes no request. *)
Theorem textless_loc_leaves_empty_cache (E : Env) (W : Sys)
    (sitemaps_url sitemaps_url' : list string) (sitemaps_path : string)
    (s s0 s2 : Session) (parts : gset (option string)) :
  files (world s) !! sitemaps_path = None →
  sitemaps_path ∉ dirs (world s) →
  read_all W sitemaps_url ∅ (announced s) = (Returned parts, s0) →
  None ∈ parts →
  open_w_ok E sitemaps_path = true →
  open_r_ok E sitemaps_path = true →
  ∃ s1,
    load_sitemap_parts_url E W sitemaps_url sitemaps_path s = (Raised TypeError, s1)
    ∧ files (world s1) = <[sitemaps_path := ""]> (files (world s))
    ∧ (files (world s2) = files (world s1) →
       ∃ s3,
         load_sitemap_parts_url E W sitemaps_url' sitemaps_path s2
         = (Returned ∅, s3)
         ∧ gets s3 = gets s2).
Proof.
  intros Hfile Hdir Hall Hnone Hopen Hread. rewrite load_live by done.
  rewrite Hall. apply read_all_Returned in Hall as (Hw & _).
  rewrite L_bind_run. unfold run at 1, open_w. rewrite Hopen. cbn [world gets].
  rewrite L_bind_run. unfold done, sorted_lines.
  rewrite bool_decide_eq_true_2 by done.
  eexists. split; [reflexivity|]. cbn [world files]. rewrite Hw.
  split; [done|]. intros Hfiles.
  rewrite load_cached by (left; by rewrite Hfiles, lookup_insert_eq).
  unfold readlines. cbn [announced world files dirs trace].
  rewrite Hfiles, lookup_insert_eq, Hread. eexists. split; reflexivity.
Qed.

Section WholeProgram.
Context (E : Env) (W : Sys).

Lemma run_run {A} (m : M A) (s : Session) :
  run m s = (match (m (world s)).1 with
             | Ok a => Returned a
             | Raise e => Raised (Std e)
             end, mkSession (m (world s)).2 (gets s)).
Proof. unfold run. by destruct (m (world s)) as [[a|e] w]. Qed.

(** The first stage changes no file but the cache file, and no
    directory. *)
Lemma load_frame (sitemaps_url : list string) (sitemaps_path : string)
    (s : Session) :
  ∃ o s1,
    load_sitemap_parts_url E W sitemaps_url sitemaps_path s = (o, s1)
    ∧ dirs (world s1) = dirs (world s)
    ∧ ∀ p, p ≠ sitemaps_path → files (world s1) !! p = files (world s) !! p.
Proof.
  destruct (decide (is_Some (files (world s) !! sitemaps_path)
                    ∨ sitemaps_path ∈ dirs (world s))) as [Hthere|Hnot].
  - rewrite load_cached by done. unfold readlines.
    cbn [announced world files dirs trace].
    destruct (files (world s) !! sitemaps_path); [|by eexists _, _].
    destruct (open_r_ok E sitemaps_path); by eexists _, _.
  - rewrite load_live.
    2:{ destruct (files (world s) !! sitemaps_path) eqn:?; [|done].
        exfalso. apply Hnot. left. eauto. }
    2:{ intros ?. apply Hnot. by right. }
    destruct (read_all W sitemaps_url ∅ (announced s)) as [[parts|e] s0] eqn:Hall.
    2:{ apply read_all_Raised in Hall as [Hw _]. eexists _, _.
        split; [done|]. by rewrite Hw. }
    apply read_all_Returned in Hall as (Hw & _).
    rewrite L_bind_run. unfold run at 1, open_w.
    destruct (open_w_ok E sitemaps_path); cbn [world gets].
    2:{ eexists _, _. split; [done|]. by rewrite Hw. }
    rewrite L_bind_run. unfold done, sorted_lines.
    destruct (bool_decide (None ∈ parts)).
    { eexists _, _. split; [done|]. cbn [world files dirs]. rewrite Hw.
      split; [done|]. intros p Hp. by rewrite lookup_insert_ne. }
    rewrite L_bind_run. unfold run at 1. cbn [world gets].
    edestruct (writelines_run E sitemaps_path) as [tr ->];
      [simpl; by rewrite lookup_insert_eq|].
    destruct (written E sitemaps_path _).2.
    + rewrite L_bind_run. unfold run, print, emit, mret, L_ret.
      eexists _, _. split; [done|]. cbn [world files dirs]. rewrite Hw.
      split; [done|]. intros p Hp. by rewrite !lookup_insert_ne.
    + eexists _, _. split; [done|]. cbn [world files dirs]. rewrite Hw.
      split; [done|]. intros p Hp. by rewrite !lookup_insert_ne.
Qed.

End WholeProgram.

Section Main.
Context (E : Env) (W : Sys).

(** Lines 118-119 and 129-130, followed by [k]: [OSError], or [k] run with
    the directory in place and the files as they were. *)
Lemma ensure_dir_run {B} (p : string) (k : L B) (s : Session) :
  (b ← run (os_path_isdir p);
   (if negb b then run (os_makedirs W p) else mret ());; k) s
  = (Raised (Std OSError), s)
  ∨ ∃ w, files w = files (world s) ∧ trace w = trace (world s)
         ∧ p ∈ dirs w ∧ dirs (world s) ⊆ dirs w
         ∧ (b ← run (os_path_isdir p);
            (if negb b then run (os_makedirs W p) else mret ());; k) s
           = k (mkSession w (gets s)).
Proof.
  rewrite L_bind_run, run_run. unfold os_path_isdir. cbn [fst snd].
  case_bool_decide as Hdir; cbn [negb]; rewrite L_bind_run.
  - right. exists (world s). unfold mret, L_ret.
    repeat split; try done; by destruct s.
  - rewrite run_run. unfold os_makedirs.
    case_bool_decide as Hthere; cbn [fst snd]; [left; by destruct s|].
    destruct (makedirs_ok W p); cbn [fst snd]; [|left; by destruct s].
    right.
    exists (mkWorld (files (world s))
                    (dirs (world s) ∪ {[p]} ∪ list_to_set (ancestors_from "" p))
                    (trace (world s))).
    repeat split; simpl; try done; set_solver.
Qed.

Lemma sitemap_lines_undecodable (raw_lines : list string) (raw_line : string) :
  raw_line ∈ raw_lines → decode W raw_line = None →
  sitemap_lines W raw_lines = Raised (Std ValueError).
Proof.
  intros Hin Hbad. induction raw_lines as [|l rest IH];
    [by apply elem_of_nil in Hin|].
  simpl. destruct (decode W l) as [text|] eqn:Hl; [|done].
  apply elem_of_cons in Hin as [-> | Hin]; [congruence|].
  by rewrite IH.
Qed.

Lemma print_run {B} (line : string) (k : L B) (s : Session) :
  (run (print line);; k) s
  = k (mkSession (mkWorld (files (world s)) (dirs (world s))
                          (trace (world s) ++ [EvPrint line])) (gets s)).
Proof. done. Qed.

(** [main] fails before its last line with the files as they were, or
    comes down to [fetch_app_ids] on those files, with the cache directory
    in place. *)
Lemma main_stages (s : Session) (r : outcome unit * Session) :
  main E W s = r →
  ∃ s0,
    files (world s0) = files (world s)
    ∧ (gets s0 = gets s ∨ gets s0 = gets s ++ [ROBOTS_TXT_URL])
    ∧ ((∃ e, r = (Raised e, s0))
       ∨ ("GPAppId/app_ids_main" ∈ dirs (world s0)
          ∧ ∃ sitemaps_url,
              r = fetch_app_ids_from E W sitemaps_url "GPAppId/sitemaps.txt"
                    "GPAppId/app_ids_main" "GPAppId/app_ids_main.txt" s0)).
Proof.
  cbv beta zeta delta [main].
  match goal with
  | |- context [(run (os_path_isdir ?p) ≫= λ b, _ ≫= λ _, ?k) s] =>
      destruct (ensure_dir_run p k s) as [-> | (w1 & Hf1 & _ & _ & _ & ->)]
  end; [intros <-; exists s; eauto 6|].
  match goal with
  | |- context [(run (os_path_isdir ?p) ≫= λ b, _ ≫= λ _, ?k) ?s1] =>
      destruct (ensure_dir_run p k s1) as [-> | (w2 & Hf2 & _ & Hdir & _ & ->)]
  end; [intros <-; eexists; split; [|split; [|left; eexists; reflexivity]]; auto|].
  cbn [world gets] in Hf2.
  rewrite !print_run. cbn [world gets files dirs trace].
  rewrite L_bind_run. unfold fetch_sitemaps_url at 1. cbn [world gets].
  destruct (content_lines W ROBOTS_TXT_URL) as [[raw_lines whole]|];
    [|intros <-; eexists; split; [|split; [|left; eexists; reflexivity]];
      simpl; [congruence|auto]].
  destruct (sitemap_lines W raw_lines) as [sitemaps_url|e];
    [|intros <-; eexists; split; [|split; [|left; eexists; reflexivity]];
      simpl; [congruence|auto]].
  destruct whole;
    [|intros <-; eexists; split; [|split; [|left; eexists; reflexivity]];
      simpl; [congruence|auto]].
  rewrite print_run. cbn [world gets files dirs trace]. intros <-.
  eexists. split; [|split; [|right; split; [|eexists; reflexivity]]]; simpl;
    [congruence|auto|done].
Qed.

End Main.


(** X20. [main] never refreshes an output file that is already there:
    however the run ends, the output file holds afterwards what it held
    before. *)
Theorem main_keeps_existing_output (E : Env) (W : Sys) (s : Session)
    (data : string) :
  files (world s) !! "GPAppId/app_ids_main.txt" = Some data →
  files (world (main E W s).2) !! "GPAppId/app_ids_main.txt" = Some data.
Proof.
  intros Hout.
  destruct (main_stages E W s _ eq_refl)
    as (s0 & Hf0 & _ & [[e ->] | (_ & urls & ->)]); [simpl; by rewrite Hf0|].
  unfold fetch_app_ids_from. rewrite L_bind_run.
  destruct (load_frame E W urls "GPAppId/sitemaps.txt" s0)
    as (o & s1 & -> & _ & Hf1).
  assert (files (world s1) !! "GPAppId/app_ids_main.txt" = Some data) as Hout1
    by (by rewrite Hf1, Hf0).
  destruct o as [parts|e]; [|done].
  rewrite run_run. cbn [snd world].
  rewrite fetch_app_ids_outside; [done| |right; by rewrite Hout1].
  vm_compute. reflexivity.
Qed.

(** X21. [main] cannot start without [robots.txt]: with both directories
    and whatever cache in place, a failed request for it ends the run with
    the network error, after that one request and with no file touched. *)
Theorem main_needs_robots_txt (E : Env) (W : Sys) (s : Session) :
  "GPAppId" ∈ dirs (world s) →
  "GPAppId/app_ids_main" ∈ dirs (world s) →
  content_lines W ROBOTS_TXT_URL = None →
  ∃ s',
    main E W s = (Raised NetworkError, s')
    ∧ files (world s') = files (world s)
    ∧ gets s' = gets s ++ [ROBOTS_TXT_URL].
Proof.
  intros Hdir1 Hdir2 Hrobots. cbv beta zeta delta [main].
  rewrite L_bind_run, run_run. unfold os_path_isdir at 1. cbn [fst snd].
  rewrite bool_decide_eq_true_2 by done. cbn [negb].
  rewrite L_bind_run. unfold mret at 1, L_ret at 1.
  rewrite L_bind_run, run_run. unfold os_path_isdir at 1. cbn [fst snd world].
  rewrite bool_decide_eq_true_2 by done. cbn [negb].
  rewrite L_bind_run. unfold mret at 1, L_ret at 1.
  rewrite !print_run. cbn [world gets files dirs trace].
  rewrite L_bind_run. unfold fetch_sitemaps_url. rewrite Hrobots.
  by eexists.
Qed.

(** X22. With the cache file of sitemap URLs in place, [main] requests no
    sitemap: its one request through the session, if it gets that far, is
    the one for [robots.txt]. *)
Theorem main_with_cache_requests_no_sitemap (E : Env) (W : Sys) (s : Session)
    (data : string) :
  files (world s) !! "GPAppId/sitemaps.txt" = Some data →
  gets (main E W s).2 = gets s
  ∨ gets (main E W s).2 = gets s ++ [ROBOTS_TXT_URL].
Proof.
  intros Hcache.
  destruct (main_stages E W s _ eq_refl)
    as (s0 & Hf0 & Hg0 & [[e ->] | (_ & urls & ->)]); [done|].
  unfold fetch_app_ids_from. rewrite L_bind_run.
  rewrite load_cached by (left; by rewrite Hf0, Hcache).
  destruct (readlines E _ _) as [[lines|e] w]; [|done].
  by rewrite run_run.
Qed.


(** X23. One line of [robots.txt] that is not UTF-8 stops the search for
    sitemaps with [UnicodeDecodeError], a [ValueError], wherever the line
    stands and whether or not it names a sitemap; the one request has been
    made and no file is touched. *)
Theorem undecodable_robots_line_fails (W : Sys) (raw_lines : list string)
    (whole : bool) (raw_line : string) (s : Session) :
  content_lines W ROBOTS_TXT_URL = Some (raw_lines, whole) →
  raw_line ∈ raw_lines →
  decode W raw_line = None →
  fetch_sitemaps_url W s
  = (Raised (Std ValueError), mkSession (world s) (gets s ++ [ROBOTS_TXT_URL])).
Proof.
  intros Hrobots Hin Hbad. unfold fetch_sitemaps_url. rewrite Hrobots.
  by rewrite (sitemap_lines_undecodable W raw_lines raw_line).
Qed.

(** ** The further theorems at concrete inputs *)

(** X1 on shard A, with the output in place: the task leaves it alone. *)
Lemma task_stays_in_cache_dir_witness :
  entry_name Ref.cache Ref.output = None
  ∧ files (fetch_app_ids_task Ref.env Ref.shard_A Ref.cache Ref.have_output).2
      !! Ref.output
    = files Ref.have_output !! Ref.output.
Proof.
  assert (entry_name Ref.cache Ref.output = None) as Hentry
    by (vm_compute; reflexivity).
  split; [exact Hentry|].
  exact (task_stays_in_cache_dir Ref.env Ref.shard_A Ref.cache Ref.output
           Ref.have_output Hentry).
Defined.

(** X2 on shard A and its mirror, which the network does not serve: the
    record of A is gone after both. *)
Lemma same_key_last_task_wins_witness :
  get_url_file_name Ref.env Ref.shard_A = Ok "A.xml.gz"
  ∧ get_url_file_name Ref.env Case.mirror_A = Ok "A.xml.gz"
  ∧ files (fetch_app_ids_task Ref.env Case.mirror_A Ref.cache
             (fetch_app_ids_task Ref.env Ref.shard_A Ref.cache Ref.fresh).2).2
    = files (fetch_app_ids_task Ref.env Case.mirror_A Ref.cache Ref.fresh).2.
Proof.
  assert (get_url_file_name Ref.env Ref.shard_A = Ok "A.xml.gz") as H1
    by reflexivity.
  assert (get_url_file_name Ref.env Case.mirror_A = Ok "A.xml.gz") as H2
    by reflexivity.
  split; [exact H1|]. split; [exact H2|].
  exact (same_key_last_task_wins Ref.env Ref.shard_A Case.mirror_A Ref.cache
           "A.xml.gz" Ref.fresh H1 H2).
Defined.

(** X3 on shards A and B, dispatched in either order. *)
Lemma pool_order_irrelevant_witness :
  files (run_fetch_app_ids_tasks Ref.env [Ref.shard_A; Ref.shard_B]
           Ref.cache Ref.fresh).2
  = files (run_fetch_app_ids_tasks Ref.env [Ref.shard_B; Ref.shard_A]
             Ref.cache Ref.fresh).2.
Proof.
  apply (pool_order_irrelevant Ref.env [Ref.shard_A; Ref.shard_B]
           [Ref.shard_B; Ref.shard_A] Ref.cache Ref.fresh).
  - apply perm_swap.
  - intros url1 url2 name H1 H2.
    assert (url1 = Ref.shard_A ∨ url1 = Ref.shard_B) as [-> | ->]
      by (apply elem_of_cons in H1 as [?|H1]; [by left|];
          apply elem_of_cons in H1 as [?|H1]; [by right|];
          by apply elem_of_nil in H1);
    assert (url2 = Ref.shard_A ∨ url2 = Ref.shard_B) as [-> | ->]
      by (apply elem_of_cons in H2 as [?|H2]; [by left|];
          apply elem_of_cons in H2 as [?|H2]; [by right|];
          by apply elem_of_nil in H2);
    intros Hn1 Hn2; vm_compute in Hn1, Hn2; congruence.
Defined.

(** X4 on shard C, which has no record beside those of A and B. *)
Lemma pending_iff_no_usable_record_witness :
  Ref.shard_C ∈ [Ref.shard_C] ↔
    "C.xml.gz" = "" ∨ Py.startswith "C.xml.gz" "." = true
    ∨ files Ref.two_records !! Path.join Ref.cache ("C.xml.gz" +:+ ".txt") = None.
Proof.
  apply (pending_iff_no_usable_record Ref.env Ref.shards_A_C Ref.cache
           Ref.two_records
           (check_records Ref.env Ref.shards_A_C Ref.cache Ref.two_records).2
           [Ref.shard_C] Ref.shard_C "C.xml.gz" env_ok).
  - apply (bool_decide_unpack _). vm_compute. exact I.
  - vm_compute. reflexivity.
  - apply (bool_decide_unpack _). vm_compute. exact I.
  - reflexivity.
Defined.

(** X5 on shards A and C from an empty cache: A is fetched, C fails and
    is the one URL pending afterwards. *)
Lemma pending_never_grows_witness :
  Case.check_fresh = (Ok [Ref.shard_C; Ref.shard_A], Case.check_fresh.2)
  ∧ Case.check_again = (Ok [Ref.shard_C], Case.check_again.2)
  ∧ ∀ url, url ∈ [Ref.shard_C] → url ∈ [Ref.shard_C; Ref.shard_A].
Proof.
  assert (Case.check_fresh = (Ok [Ref.shard_C; Ref.shard_A], Case.check_fresh.2))
    as Hcheck by (vm_compute; reflexivity).
  assert (Case.check_again = (Ok [Ref.shard_C], Case.check_again.2))
    as Hcheck' by (vm_compute; reflexivity).
  split; [exact Hcheck|]. split; [exact Hcheck'|].
  apply (pending_never_grows Ref.env Ref.shards_A_C Ref.cache Ref.fresh
           Case.check_fresh.2 Case.fetch_fresh.2 Case.fetch_fresh.2
           Case.check_again.2 [Ref.shard_C; Ref.shard_A] [Ref.shard_C]
           Case.fetch_fresh.1 env_ok).
  - apply (bool_decide_unpack _). vm_compute. exact I.
  - exact Hcheck.
  - vm_compute. reflexivity.
  - reflexivity.
  - reflexivity.
  - exact Hcheck'.
Defined.

(** X6 in the same run: A was fetched and is not pending afterwards,
    although the task of C failed. *)
Lemma fetched_shard_leaves_pending_witness :
  ∃ pending' w4,
    check_records Ref.env Ref.shards_A_C Ref.cache Case.fetch_fresh.2
    = (Ok pending', w4)
    ∧ Ref.shard_A ∉ pending'.
Proof.
  apply (fetched_shard_leaves_pending Ref.env Ref.shards_A_C Ref.cache Ref.fresh
           Case.check_fresh.2 Case.fetch_fresh.2 Case.fetch_fresh.2
           [Ref.shard_C; Ref.shard_A] Case.fetch_fresh.1 Ref.shard_A "A.xml.gz"
           env_ok).
  - apply (bool_decide_unpack _). vm_compute. exact I.
  - vm_compute. reflexivity.
  - vm_compute. reflexivity.
  - reflexivity.
  - reflexivity.
  - apply (bool_decide_unpack _). vm_compute. exact I.
  - reflexivity.
  - discriminate.
  - reflexivity.
  - intros u Hu.
    assert (u = Ref.shard_C ∨ u = Ref.shard_A) as [-> | ->]
      by (apply elem_of_cons in Hu as [?|Hu]; [by left|];
          apply elem_of_cons in Hu as [?|Hu]; [by right|];
          by apply elem_of_nil in Hu);
      [intros Hn; vm_compute in Hn; congruence | done].
  - vm_compute. reflexivity.
Defined.

(** X7 with shard A and a URL whose host bracket is not closed. *)
Lemma rejected_url_stops_run_witness :
  urlparse Ref.env Case.bad_url = None
  ∧ fetch_app_ids Ref.env Case.shards_A_bad Ref.cache Ref.output Ref.fresh =
      (Raise ValueError,
       mkWorld (files Ref.fresh) (dirs Ref.fresh)
               (trace Ref.fresh ++ [EvPrint "Checking records"; EvListdir Ref.cache])).
Proof.
  assert (urlparse Ref.env Case.bad_url = None) as Hparse
    by (vm_compute; reflexivity).
  split; [exact Hparse|].
  apply (rejected_url_stops_run Ref.env Case.shards_A_bad Ref.cache Ref.output
           Case.bad_url Ref.fresh); [| |exact Hparse].
  - apply (bool_decide_unpack _). vm_compute. exact I.
  - apply (bool_decide_unpack _). vm_compute. exact I.
Defined.

(** X8 with an old output and shard B still to fetch. *)
Lemma existing_output_is_kept_witness :
  files Case.stale_output !! Ref.output = Some "old"
  ∧ files (fetch_app_ids Ref.env Ref.shards_A_B Ref.cache Ref.output
             Case.stale_output).2 !! Ref.output
    = Some "old".
Proof.
  assert (files Case.stale_output !! Ref.output = Some "old") as Hout
    by (vm_compute; reflexivity).
  split; [exact Hout|].
  apply (existing_output_is_kept Ref.env Ref.shards_A_B Ref.cache Ref.output
           "old" Case.stale_output); [|exact Hout].
  vm_compute. reflexivity.
Defined.


(** X10 on the record of A an earlier run left, with B still to fetch. *)
Lemma recorded_shards_untouched_witness :
  files (fetch_app_ids Ref.env Ref.shards_A_B Ref.cache Ref.output Ref.stale).2
    !! Path.join Ref.cache ("A.xml.gz" +:+ ".txt")
  = files Ref.stale !! Path.join Ref.cache ("A.xml.gz" +:+ ".txt").
Proof.
  apply (recorded_shards_untouched Ref.env Ref.shards_A_B Ref.cache Ref.output
           "A.xml.gz" Ref.stale env_ok).
  - apply (bool_decide_unpack _). vm_compute. exact I.
  - reflexivity.
  - discriminate.
  - reflexivity.
  - vm_compute. discriminate.
  - vm_compute. eauto.
Defined.


(** X14 on the rejected URL followed by shard A. *)
Lemma pool_raises_after_all_tasks_witness :
  urlparse Ref.env Case.bad_url = None
  ∧ (run_fetch_app_ids_tasks Ref.env [Case.bad_url; Ref.shard_A] Ref.cache
       Ref.fresh).1 = Raise ValueError
  ∧ ∃ tr,
      trace (run_fetch_app_ids_tasks Ref.env [Case.bad_url; Ref.shard_A]
               Ref.cache Ref.fresh).2 = trace Ref.fresh ++ tr
      ∧ printed tr = []
      ∧ ∀ u, u ∈ [Case.bad_url; Ref.shard_A] → is_Some (urlparse Ref.env u) →
             EvUrlopen u ∈ tr.
Proof.
  assert (urlparse Ref.env Case.bad_url = None) as Hparse
    by (vm_compute; reflexivity).
  split; [exact Hparse|].
  apply (pool_raises_after_all_tasks Ref.env [Case.bad_url; Ref.shard_A]
           Ref.cache Case.bad_url Ref.fresh); [|exact Hparse].
  apply list_elem_of_here.
Defined.

(** X15 on the sitemap that lists B, A and B again. *)
Lemma live_load_caches_every_loc_witness :
  Case.live_load = (Returned Ref.shards_A_B, Case.live_load.2)
  ∧ gets Case.live_load.2 = gets Case.start ++ [Case.index_0]
  ∧ files (world Case.live_load.2)
    = <[Case.sitemaps :=
          Py.join ((λ line, line +:+ nl)
                     <$> merge_sort String.le (elements Ref.shards_A_B))]>
        (files (world Case.start))
  ∧ ∀ u, u ∈ Ref.shards_A_B ↔
         ∃ url raw tree n,
           url ∈ [Case.index_0] ∧ session_get Case.sys url = Some raw
           ∧ index_fromstring Case.sys raw = Some tree
           ∧ n ∈ xpath_loc tree ∧ node_text n = Some u.
Proof.
  assert (Case.live_load = (Returned Ref.shards_A_B, Case.live_load.2)) as Hload
    by (vm_compute; reflexivity).
  split; [exact Hload|].
  apply (live_load_caches_every_loc Ref.env Case.sys [Case.index_0]
           Case.sitemaps Case.start Case.live_load.2 Ref.shards_A_B);
    [| |exact Hload].
  - reflexivity.
  - apply (bool_decide_unpack _). vm_compute. exact I.
Defined.

(** X16 on the same load: a later run, handed another list of sitemaps,
    reads shards A and B back from the cache file. *)
Lemma sitemap_cache_round_trip_witness :
  Case.live_load = (Returned Ref.shards_A_B, Case.live_load.2)
  ∧ ∃ s3,
      load_sitemap_parts_url Ref.env Case.sys [Case.index_1] Case.sitemaps
        Case.live_load.2
      = (Returned Ref.shards_A_B, s3)
      ∧ gets s3 = gets Case.live_load.2
      ∧ files (world s3) = files (world Case.live_load.2).
Proof.
  assert (Case.live_load = (Returned Ref.shards_A_B, Case.live_load.2)) as Hload
    by (vm_compute; reflexivity).
  split; [exact Hload|].
  apply (sitemap_cache_round_trip Ref.env Case.sys [Case.index_0] [Case.index_1]
           Case.sitemaps Case.start Case.live_load.2 Case.live_load.2
           Ref.shards_A_B).
  - reflexivity.
  - apply (bool_decide_unpack _). vm_compute. exact I.
  - exact Hload.
  - intros u Hu.
    assert (u = Ref.shard_A ∨ u = Ref.shard_B) as [-> | ->]
      by (apply elem_of_union in Hu as [Hu|Hu];
          apply elem_of_singleton in Hu; auto);
      vm_compute; auto.
  - reflexivity.
  - reflexivity.
Defined.

(** X17 on a sitemap the network does not serve. *)
Lemma failed_live_load_leaves_no_cache_witness :
  Case.load_missing = (Raised NetworkError, Case.load_missing.2)
  ∧ files (world Case.load_missing.2) = files (world Case.start)
  ∧ dirs (world Case.load_missing.2) = dirs (world Case.start).
Proof.
  assert (Case.load_missing = (Raised NetworkError, Case.load_missing.2))
    as Hload by (vm_compute; reflexivity).
  split; [exact Hload|].
  apply (failed_live_load_leaves_no_cache Ref.env Case.sys
           ["https://play.google.com/sitemaps/index-2.xml"] Case.sitemaps
           Case.start Case.load_missing.2 NetworkError); [| |exact Hload|].
  - reflexivity.
  - apply (bool_decide_unpack _). vm_compute. exact I.
  - by left.
Defined.

(** X18 on the sitemap with a [loc] element that has no text. *)
Lemma textless_loc_leaves_empty_cache_witness :
  Case.read_textless = (Returned {[Some Ref.shard_A; None]}, Case.read_textless.2)
  ∧ ∃ s1,
      load_sitemap_parts_url Ref.env Case.sys [Case.index_1] Case.sitemaps
        Case.start
      = (Raised TypeError, s1)
      ∧ files (world s1) = <[Case.sitemaps := ""]> (files (world Case.start))
      ∧ (files (world Case.load_textless.2) = files (world s1) →
         ∃ s3,
           load_sitemap_parts_url Ref.env Case.sys [Case.index_0] Case.sitemaps
             Case.load_textless.2
           = (Returned ∅, s3)
           ∧ gets s3 = gets Case.load_textless.2).
Proof.
  assert (Case.read_textless
          = (Returned {[Some Ref.shard_A; None]}, Case.read_textless.2)) as Hall
    by (vm_compute; reflexivity).
  split; [exact Hall|].
  apply (textless_loc_leaves_empty_cache Ref.env Case.sys [Case.index_1]
           [Case.index_0] Case.sitemaps Case.start Case.read_textless.2
           Case.load_textless.2 {[Some Ref.shard_A; None]}).
  - reflexivity.
  - apply (bool_decide_unpack _). vm_compute. exact I.
  - exact Hall.
  - apply (bool_decide_unpack _). vm_compute. exact I.
  - reflexivity.
  - reflexivity.
Defined.


(** X20 with an old output in place. *)
Lemma main_keeps_existing_output_witness :
  files (world Case.resumed) !! "GPAppId/app_ids_main.txt" = Some "100"
  ∧ files (world (main Ref.env Case.sys Case.resumed).2)
      !! "GPAppId/app_ids_main.txt"
    = Some "100".
Proof.
  assert (files (world Case.resumed) !! "GPAppId/app_ids_main.txt" = Some "100")
    as Hout by (vm_compute; reflexivity).
  split; [exact Hout|].
  exact (main_keeps_existing_output Ref.env Case.sys Case.resumed "100" Hout).
Defined.

(** X21 with the network down and the cache complete. *)
Lemma main_needs_robots_txt_witness :
  ∃ s',
    main Ref.env Case.offline Case.resumed = (Raised NetworkError, s')
    ∧ files (world s') = files (world Case.resumed)
    ∧ gets s' = gets Case.resumed ++ [ROBOTS_TXT_URL].
Proof.
  apply (main_needs_robots_txt Ref.env Case.offline Case.resumed).
  - apply (bool_decide_unpack _). vm_compute. exact I.
  - apply (bool_decide_unpack _). vm_compute. exact I.
  - reflexivity.
Defined.

(** X22 with a cache file that names shard A. *)
Lemma main_with_cache_requests_no_sitemap_witness :
  files (world Case.resumed) !! "GPAppId/sitemaps.txt"
  = Some (Ref.shard_A +:+ nl)
  ∧ (gets (main Ref.env Case.sys Case.resumed).2 = gets Case.resumed
     ∨ gets (main Ref.env Case.sys Case.resumed).2
       = gets Case.resumed ++ [ROBOTS_TXT_URL]).
Proof.
  assert (files (world Case.resumed) !! "GPAppId/sitemaps.txt"
          = Some (Ref.shard_A +:+ nl)) as Hcache by (vm_compute; reflexivity).
  split; [exact Hcache|].
  exact (main_with_cache_requests_no_sitemap Ref.env Case.sys Case.resumed
           (Ref.shard_A +:+ nl) Hcache).
Defined.

(** X23 on a [robots.txt] whose first line, a comment, is Latin-1. *)
Lemma undecodable_robots_line_fails_witness :
  fetch_sitemaps_url Case.latin1 Case.start
  = (Raised (Std ValueError),
     mkSession (world Case.start) (gets Case.start ++ [ROBOTS_TXT_URL])).
Proof.
  apply (undecodable_robots_line_fails Case.latin1 Case.robots_latin1 true
           Case.latin1_line Case.start).
  - reflexivity.
  - apply list_elem_of_here.
  - reflexivity.
Defined.
